(** * ruSciBench evaluation harness: [ru_sci_bench/classification.py]

    A shallow embedding of the benchmark script and the properties of its
    orchestration that can be established from the code.

    The script is glue around numpy, pandas and scikit-learn.  What the script
    itself does (selecting tasks, joining ids with embeddings, counting hits,
    building result dictionaries) is embedded as executable definitions.  What
    the libraries do (fitting an SVM, searching neighbours, scoring) is taken
    through interfaces; reference implementations in exact rational arithmetic
    are supplied so that every definition can be evaluated.

    Python floats are modelled by [Q]: the only float the script computes
    itself is the quotient of two integers in [translation_search]. *)

From Stdlib Require Import Reals Qreals Lra.
From Stdlib Require Import ZArith QArith String Ascii List Lia Lqa.
From stdpp Require Import base option list gmap strings.

Local Open Scope string_scope.
Local Open Scope list_scope.

(** ** Python runtime: exceptions and results *)

(** The exceptions that the script or the calls it makes can raise.  The three
    first ones are raised by the constructs of the script itself
    ([d[k]], [a / b], a numpy comparison); [Raised] stands for an exception
    coming out of an external call, identified by its class name. *)
Inductive exn : Type :=
| KeyError (key : Z)
| ZeroDivisionError
| ValueError (msg : string)
| Raised (cls : string) (msg : string).

Definition exn_class (e : exn) : string :=
  match e with
  | KeyError _ => "KeyError"
  | ZeroDivisionError => "ZeroDivisionError"
  | ValueError _ => "ValueError"
  | Raised cls _ => cls
  end.

Inductive result (A : Type) : Type :=
| Ok (a : A)
| Err (e : exn).
Arguments Ok {A} a.
Arguments Err {A} e.

Definition rbind {A B} (r : result A) (f : A -> result B) : result B :=
  match r with
  | Ok a => f a
  | Err e => Err e
  end.

Definition is_ok {A} (r : result A) : bool :=
  match r with Ok _ => true | Err _ => false end.

Declare Scope result_scope.
Delimit Scope result_scope with result.
Notation "x <- r ;; k" := (rbind r (fun x => k))
  (at level 100, r at next level, right associativity) : result_scope.

(** [for x in xs: ys.append(f(x))] with a body that may raise: the first
    exception aborts the loop. *)
Fixpoint rmap {A B} (f : A -> result B) (xs : list A) : result (list B) :=
  match xs with
  | [] => Ok []
  | x :: xs' =>
      match f x with
      | Err e => Err e
      | Ok y =>
          match rmap f xs' with
          | Err e => Err e
          | Ok ys => Ok (y :: ys)
          end
      end
  end.

(** ** Python dictionaries

    A [dict] keeps its keys in insertion order, and that order is observable
    (the report is printed and iterated), so dictionaries with string keys are
    association lists without duplicate keys. *)
Definition dict (V : Type) : Type := list (string * V).

Fixpoint dict_set {V} (d : dict V) (k : string) (v : V) : dict V :=
  match d with
  | [] => [(k, v)]
  | (k', v') :: d' =>
      if String.eqb k' k then (k, v) :: d' else (k', v') :: dict_set d' k v
  end.

Fixpoint dict_get {V} (d : dict V) (k : string) : option V :=
  match d with
  | [] => None
  | (k', v') :: d' => if String.eqb k' k then Some v' else dict_get d' k
  end.

Definition dict_keys {V} (d : dict V) : list string := map fst d.

(** [embeddings[id_]] on the embedding store. *)
Definition getitem {V} (d : gmap Z V) (k : Z) : result V :=
  match d !! k with
  | Some v => Ok v
  | None => Err (KeyError k)
  end.

(** ** Python operators used by the script *)
Module Py.

(** [a / b] on two [int]s. *)
Definition truediv (a b : Z) : result Q :=
  if (b =? 0)%Z then Err ZeroDivisionError
  else Ok (inject_Z a / inject_Z b)%Q.

(** [needle in haystack] on two [str]: substring search. *)
Fixpoint prefix (p s : string) : bool :=
  match p, s with
  | EmptyString, _ => true
  | String a p', String b s' => if Ascii.eqb a b then prefix p' s' else false
  | String _ _, EmptyString => false
  end.

Fixpoint contains (needle haystack : string) : bool :=
  if prefix needle haystack then true
  else match haystack with
       | EmptyString => false
       | String _ rest => contains needle rest
       end.

End Py.

(** ** numpy operations on one-dimensional arrays *)
Module Np.

(** [np.arange(n)] *)
Definition arange (n : nat) : list nat := seq 0 n.

(** [a == b] on two one-dimensional integer arrays.  Equal shapes compare
    element by element; a shape of length one is broadcast against the
    other; any other pair of shapes cannot be broadcast. *)
Definition eq (a b : list nat) : result (list bool) :=
  if (length a =? length b)%nat then Ok (zip_with Nat.eqb a b)
  else match a, b with
       | [x], _ => Ok (map (fun y => Nat.eqb x y) b)
       | _, [y] => Ok (map (fun x => Nat.eqb x y) a)
       | _, _ => Err (ValueError "operands could not be broadcast together")
       end.

(** [mask.nonzero()[0]]: the positions holding [True]. *)
Fixpoint nonzero_from (k : nat) (mask : list bool) : list nat :=
  match mask with
  | [] => []
  | b :: mask' =>
      if b then k :: nonzero_from (S k) mask' else nonzero_from (S k) mask'
  end.

Definition nonzero (mask : list bool) : list nat := nonzero_from 0 mask.

(** [np.linspace(start, stop, num)] (endpoint included).  For [num = 1] the
    step is irrelevant and the array is [[start]]. *)
Definition linspace (start stop : Q) (num : nat) : list Q :=
  let step := ((stop - start) / inject_Z (Z.of_nat (num - 1)))%Q in
  map (fun i => (start + inject_Z (Z.of_nat i) * step)%Q) (seq 0 num).

(** [10 ** e].  An exponent that is not an integer gives an irrational
    value, which this exact model cannot hold: [None]. *)
Definition pow10 (e : Q) : option Q :=
  let r := Qred e in
  if (Z.pos (Qden r) =? 1)%Z then Some (Qpower 10 (Qnum r)) else None.

(** [np.logspace(start, stop, num)] (base 10). *)
Definition logspace (start stop : Q) (num : nat) : option (list Q) :=
  mapM pow10 (linspace start stop num).

End Np.

(** ** Values held by the dictionaries the script returns *)

(** A metric dictionary maps a metric name to a float (an F1 score, a recall)
    or to a text (the classification report). *)
Inductive value : Type :=
| Float (q : Q)
| Text (s : string).

Definition MetricResult : Type := dict value.
Definition Report : Type := dict MetricResult.

(** Arguments given to the constructors of scikit-learn objects.  An
    estimator is described by its class and by the keyword arguments that the
    script passes; a keyword that is absent keeps the library's default. *)
#[local] Unset Elimination Schemes.
Inductive pyval : Type :=
| PInt (z : Z)
| PBool (b : bool)
| PStr (s : string)
| PArray (xs : list Q)
| PDict (items : list (string * pyval))
| PObj (cls : string) (kwargs : list (string * pyval)).
#[local] Set Elimination Schemes.

Definition kwargs_of (v : pyval) : list (string * pyval) :=
  match v with
  | PObj _ kw => kw
  | PDict items => items
  | _ => []
  end.

(** Values of the translation file: an id is written as a number or as a
    string. *)
Inductive json_scalar : Type :=
| JInt (z : Z)
| JStr (s : string).

(** [metrics: Union[str, list[str]]] *)
Inductive selector : Type :=
| Name (s : string)
| Names (l : list string).

(** ** Effects

    What a run does besides computing its value: lines written to the console,
    files opened, and models handed to [fit].  The trace is kept when an
    exception ends the run. *)
Inductive event (vec label : Type) : Type :=
| Stdout (line : string)
| ReadFile (path : string)
| Fit (model : pyval) (X : list vec) (y : list label).
Arguments Stdout {vec label} line.
Arguments ReadFile {vec label} path.
Arguments Fit {vec label} model X y.

Definition M (E A : Type) : Type := (list E * result A)%type.

Definition ret {E A} (a : A) : M E A := ([], Ok a).

Definition bind {E A B} (m : M E A) (f : A -> M E B) : M E B :=
  match m with
  | (t, Ok a) => let '(t', r) := f a in (t ++ t', r)
  | (t, Err e) => (t, Err e)
  end.

Definition emit {E} (e : E) : M E unit := ([e], Ok tt).

Definition lift {E A} (r : result A) : M E A := ([], r).

Definition trace {E A} (m : M E A) : list E := fst m.
Definition outcome {E A} (m : M E A) : result A := snd m.

Declare Scope run_scope.
Delimit Scope run_scope with run.
Notation "x <- m ;; k" := (bind m (fun x => k))
  (at level 100, m at next level, right associativity) : run_scope.
Notation "m ;;; k" := (bind m (fun _ => k))
  (at level 100, right associativity) : run_scope.

Definition files_read {vec label} (t : list (event vec label)) : list string :=
  omap (fun e => match e with ReadFile p => Some p | _ => None end) t.

Definition console {vec label} (t : list (event vec label)) : list string :=
  omap (fun e => match e with Stdout l => Some l | _ => None end) t.

Definition models_fitted {vec label} (t : list (event vec label)) : list pyval :=
  omap (fun e => match e with Fit m _ _ => Some m | _ => None end) t.

(** ** Interfaces of the libraries *)

(** [NearestNeighbors(n_neighbors=1, metric="cosine", n_jobs=n_jobs)], fitted
    on [results_embs] and asked for the neighbours of [queries_embs]:
    [kneighbors n_jobs results_embs queries_embs] is the flattened index array
    [top_index.flatten()], one index per query. *)
Class NearestNeighbors (vec : Type) : Type := {
  kneighbors : Z -> list vec -> list vec -> result (list nat);
  kneighbors_length : forall n_jobs results_embs queries_embs top_index,
    kneighbors n_jobs results_embs queries_embs = Ok top_index ->
    length top_index = length queries_embs
}.

Inductive average : Type := Macro | Weighted.

(** [sklearn.metrics]: [f1_score(y_true, y_pred, average=...)] is a score
    between 0 and 1; [classification_report] is a text. *)
Class Metrics (label : Type) : Type := {
  f1_score : list label -> list label -> average -> result Q;
  f1_score_range : forall y_true y_pred avg v,
    f1_score y_true y_pred avg = Ok v -> (0 <= v /\ v <= 1)%Q;
  classification_report : list label -> list label -> result string
}.

(** Everything else the script reaches outside itself: the estimators of
    [sklearn.svm] and [sklearn.model_selection], the builtin [int], pandas'
    [read_csv] (a frame is the list of its [(id, label)] rows), [json.load],
    and the names imported from [ru_sci_bench.utils]. *)
Record DataPaths : Type := {
  ru_en_translation_test : string;
  elibrary_oecd_full_train : string;
  elibrary_oecd_full_test : string;
  elibrary_grnti_full_train : string;
  elibrary_grnti_full_test : string;
  elibrary_oecd_ru_train : string;
  elibrary_oecd_ru_test : string;
  elibrary_grnti_ru_train : string;
  elibrary_grnti_ru_test : string;
  elibrary_oecd_en_train : string;
  elibrary_oecd_en_test : string;
  elibrary_grnti_en_train : string;
  elibrary_grnti_en_test : string
}.

Class Env (vec label : Type) : Type := {
  fitted : Type;
  svm_fit : pyval -> list vec -> list label -> result fitted;
  svm_predict : fitted -> list vec -> result (list label);
  py_int : json_scalar -> result Z;
  pd_read_csv : string -> result (list (Z * label));
  json_load : string -> result (list (string * json_scalar));
  data_paths : DataPaths;
  embeddings_of_jsonl : string -> result (gmap Z vec);
  metrics_lines : string -> Report -> list string
}.

(** ** The script *)
Section Script.

Context {vec label : Type}.
Context {NN : NearestNeighbors vec} {MT : Metrics label} {EV : Env vec label}.

Local Abbreviation run := (M (event vec label)).

(** [print(line)] *)
Definition print (line : string) : run unit := emit (Stdout line).

(** [if not silent: print(line)] *)
Definition print_unless (silent : bool) (line : string) : run unit :=
  if negb silent then print line else ret tt.

(** Modelled from the spec: [print_metrics] of [ru_sci_bench.utils] is
    missing from the sources.  Per-task metrics are written to the console
    when [silent] is false, and nothing is written otherwise; the layout of
    the lines is left to [metrics_lines]. *)
Definition print_metrics (name : string) (results : Report) (silent : bool)
  : run unit :=
  if silent then ret tt
  else (map Stdout (metrics_lines name results), Ok tt).

(** Modelled from the spec: [load_embeddings_from_jsonl] of
    [ru_sci_bench.utils] is missing from the sources.  It reads the file at
    the given path and yields the mapping from document id to vector, or
    fails. *)
Definition load_embeddings_from_jsonl (embeddings_path : string)
  : run (gmap Z vec) :=
  (emit (ReadFile embeddings_path) ;;;
   lift (embeddings_of_jsonl embeddings_path))%run.

(** [pd.read_csv(path)] *)
Definition read_csv (path : string) : run (list (Z * label)) :=
  (emit (ReadFile path) ;;; lift (pd_read_csv path))%run.

(** [with open(path) as f: json.load(f)] *)
Definition read_json (path : string) : run (list (string * json_scalar)) :=
  (emit (ReadFile path) ;;; lift (json_load path))%run.

(** [svm.fit(X_train, y_train)] *)
Definition fit (svm : pyval) (X_train : list vec) (y_train : list label)
  : run fitted :=
  (emit (Fit svm X_train y_train) ;;; lift (svm_fit svm X_train y_train))%run.

(** lines 292-313 *)
Definition translation_search
    (queries_embs results_embs : list vec) (n_jobs : Z)
  : result MetricResult :=
  (top_index <- kneighbors n_jobs results_embs queries_embs ;;
   let correct_indexes := Np.arange (length results_embs) in
   mask <- Np.eq top_index correct_indexes ;;
   let is_correct := Np.nonzero mask in
   recall <- Py.truediv (Z.of_nat (length is_correct))
                        (Z.of_nat (length correct_indexes)) ;;
   Ok [("recall@1", Float recall)])%result.

(** lines 272-289 *)
Definition get_embeddings_for_translation_search
    (embeddings : gmap Z vec) (translation_test_path : string)
  : run (list vec * list vec) :=
  (translation_test <- read_json translation_test_path ;;
   ru_embs <- lift (rmap (fun id_ => k <- py_int (JStr id_) ;;
                                     getitem embeddings k)%result
                         (map fst translation_test)) ;;
   en_embs <- lift (rmap (fun id_ => k <- py_int id_ ;;
                                     getitem embeddings k)%result
                         (map snd translation_test)) ;;
   ret (ru_embs, en_embs))%run.

(** lines 251-269 *)
Definition get_X_y_for_classification
    (embeddings : gmap Z vec) (train_path test_path : string)
  : run (list vec * list vec * list label * list label) :=
  (train <- read_csv train_path ;;
   test <- read_csv test_path ;;
   X_train <- lift (rmap (fun id_ => getitem embeddings id_) (map fst train)) ;;
   X_test <- lift (rmap (fun id_ => getitem embeddings id_) (map fst test)) ;;
   ret (X_train, X_test, map snd train, map snd test))%run.

(** [np.logspace(-4, 2, 7)]: the seven exponents are integers, so the array
    is held exactly. *)
Definition C_grid : list Q :=
  default [] (Np.logspace (-4) 2 7).

(** lines 201-248 *)
Definition classify
    (X_train : list vec) (y_train : list label)
    (X_test : list vec) (y_test : list label)
    (grid_search_cv : bool) (n_jobs : Z) (max_iter : Z)
    (get_cls_report : bool) (silent : bool)
  : run MetricResult :=
  let estimator :=
    PObj "LinearSVC" [("loss", PStr "squared_hinge");
                      ("max_iter", PInt max_iter);
                      ("random_state", PInt 42)] in
  let svm :=
    if grid_search_cv then
      PObj "GridSearchCV" [("estimator", estimator);
                           ("cv", PInt 3);
                           ("param_grid", PDict [("C", PArray C_grid)]);
                           ("verbose", PBool (negb silent));
                           ("n_jobs", PInt n_jobs)]
    else estimator in
  (model <- fit svm X_train y_train ;;
   y_pred <- lift (svm_predict model X_test) ;;
   macro_f1 <- lift (f1_score y_test y_pred Macro) ;;
   weighted_f1 <- lift (f1_score y_test y_pred Weighted) ;;
   let result := [("macro_f1", Float macro_f1);
                  ("weighted_f1", Float weighted_f1)] in
   if get_cls_report then
     cls_report <- lift (classification_report y_test y_pred) ;;
     ret (dict_set result "cls_report" (Text cls_report))
   else ret result)%run.

(** [metrics in ["all", name] or name in metrics]: list membership compares
    with [==], which is false between a list and a string; [name in metrics]
    is a substring test on a string and a membership test on a list. *)
Definition selector_eqb (metrics : selector) (s : string) : bool :=
  match metrics with
  | Name m => String.eqb m s
  | Names _ => false
  end.

Definition name_in (name : string) (metrics : selector) : bool :=
  match metrics with
  | Name m => Py.contains name m
  | Names l => existsb (String.eqb name) l
  end.

Definition selected (metrics : selector) (name : string) : bool :=
  existsb (selector_eqb metrics) ["all"; name] || name_in name metrics.

(** The entry point runs the same block once per classification task
    (lines 68-86, 88-106, 110-129, 131-151, 154-174, 176-196).  The blocks
    differ in the key of the result, the announcement, the two label files,
    and in whether "Classifier training..." is announced (it is for the ru
    and en tasks, not for the full ones). *)
Definition classification_block
    (embeddings : gmap Z vec) (results : Report)
    (key announcement : string) (train_path test_path : string)
    (announce_training : bool)
    (get_cls_report grid_search_cv : bool) (n_jobs max_iter : Z)
    (silent : bool)
  : run Report :=
  (print_unless silent announcement ;;;
   data <- get_X_y_for_classification embeddings train_path test_path ;;
   let '(X_train, X_test, y_train, y_test) := data in
   (if announce_training then print_unless silent "Classifier training..."
    else ret tt) ;;;
   r <- classify X_train y_train X_test y_test
                 grid_search_cv n_jobs max_iter get_cls_report silent ;;
   let results := dict_set results key r in
   print_metrics key results silent ;;;
   ret results)%run.

(** lines 50-65 *)
Definition translation_block
    (embeddings : gmap Z vec) (results : Report) (n_jobs : Z) (silent : bool)
  : run Report :=
  (print_unless silent "Running the eLibrary translation search task..." ;;;
   embs <- get_embeddings_for_translation_search
             embeddings (ru_en_translation_test data_paths) ;;
   let '(ru_embs, en_embs) := embs in
   r <- lift (translation_search ru_embs en_embs n_jobs) ;;
   let results := dict_set results "ru_en_translation_search" r in
   print_metrics "ru_en_translation_search" results silent ;;;
   r <- lift (translation_search en_embs ru_embs n_jobs) ;;
   let results := dict_set results "en_ru_translation_search" r in
   print_metrics "en_ru_translation_search" results silent ;;;
   ret results)%run.

(** lines 16-198 *)
Definition get_ru_sci_bench_metrics
    (embeddings_path : string) (metrics : selector)
    (get_cls_report grid_search_cv : bool) (n_jobs max_iter : Z)
    (silent : bool)
  : run Report :=
  let block emb results key announcement train test training :=
    classification_block emb results key announcement train test training
      get_cls_report grid_search_cv n_jobs max_iter silent in
  (print_unless silent "Loading embeddings..." ;;;
   embeddings <- load_embeddings_from_jsonl embeddings_path ;;
   let results : Report := [] in
   results <-
     (if selected metrics "translation_search"
      then translation_block embeddings results n_jobs silent
      else ret results) ;;
   results <-
     (if selected metrics "full_classification" then
        results <- block embeddings results "elibrary_oecd_full"
          "Running the eLibrary OECD-full task..."
          (elibrary_oecd_full_train data_paths)
          (elibrary_oecd_full_test data_paths) false ;;
        block embeddings results "elibrary_grnti_full"
          "Running the eLibrary GRNTI-full task..."
          (elibrary_grnti_full_train data_paths)
          (elibrary_grnti_full_test data_paths) false
      else ret results) ;;
   results <-
     (if selected metrics "ru_classification" then
        results <- block embeddings results "elibrary_oecd_ru"
          "Running the eLibrary OECD-ru task..."
          (elibrary_oecd_ru_train data_paths)
          (elibrary_oecd_ru_test data_paths) true ;;
        block embeddings results "elibrary_grnti_ru"
          "Running the eLibrary GRNTI-ru task..."
          (elibrary_grnti_ru_train data_paths)
          (elibrary_grnti_ru_test data_paths) true
      else ret results) ;;
   results <-
     (if selected metrics "en_classification" then
        results <- block embeddings results "elibrary_oecd_en"
          "Running the eLibrary OECD-en task..."
          (elibrary_oecd_en_train data_paths)
          (elibrary_oecd_en_test data_paths) true ;;
        block embeddings results "elibrary_grnti_en"
          "Running the eLibrary GRNTI-en task..."
          (elibrary_grnti_en_train data_paths)
          (elibrary_grnti_en_test data_paths) true
      else ret results) ;;
   ret results)%run.

End Script.

(** ** Reference implementations of the interfaces

    Exact-arithmetic readings of the library calls, on vectors of rationals
    and string labels.  They make the script executable inside Rocq and show
    that the laws required of the interfaces can be met. *)
Module Reference.

Definition dot (u v : list Q) : Q :=
  fold_right Qplus 0%Q (zip_with Qmult u v).

(** Cosine similarity of [q] and [c] is [dot q c / (|q| * |c|)].  For a fixed
    query the factor [|q|] is shared, and [x |-> sgn x * x^2] is increasing,
    so candidates are ranked by [sgn a * a^2 / dot c c] with [a = dot q c].
    A zero candidate has similarity 0, as after scikit-learn's normalisation. *)
Definition similarity_key (q c : list Q) : Q :=
  let a := dot q c in
  ((if Qle_bool 0 a then a * a else - (a * a)) / dot c c)%Q.

(** Position of the first maximum. *)
Fixpoint argmax_from (k best : nat) (best_key : Q) (keys : list Q) : nat :=
  match keys with
  | [] => best
  | x :: keys' =>
      if Qle_bool x best_key then argmax_from (S k) best best_key keys'
      else argmax_from (S k) k x keys'
  end.

Definition nearest (candidates : list (list Q)) (q : list Q) : nat :=
  match map (similarity_key q) candidates with
  | [] => 0
  | x :: keys => argmax_from 1 0 x keys
  end.

(** Exact search.  An array without rows is rejected on validation, as
    scikit-learn does for [np.array([])]. *)
Definition cosine_kneighbors
    (n_jobs : Z) (results_embs queries_embs : list (list Q))
  : result (list nat) :=
  match results_embs, queries_embs with
  | [], _ | _, [] =>
      Err (ValueError "Expected 2D array, got 1D array instead")
  | _, _ => Ok (map (nearest results_embs) queries_embs)
  end.

Section F1.

Context {label : Type} `{EqDecision label}.

Definition count_where (p : label -> label -> bool)
    (y_true y_pred : list label) : nat :=
  length (filter (fun tp => p (fst tp) (snd tp) = true) (zip y_true y_pred)).

Definition is_label (l x : label) : bool := bool_decide (x = l).

Definition tp l := count_where (fun t p => is_label l t && is_label l p).
Definition fp l := count_where (fun t p => negb (is_label l t) && is_label l p).
Definition fn l := count_where (fun t p => is_label l t && negb (is_label l p)).
Definition support l := count_where (fun t _ => is_label l t).

Definition qnat (n : nat) : Q := inject_Z (Z.of_nat n).

(** Per-class F1, [2 tp / (2 tp + fp + fn)]; 0 when the class has neither
    true nor predicted members. *)
Definition f1_of (l : label) (y_true y_pred : list label) : Q :=
  (qnat (2 * tp l y_true y_pred)
   / qnat (2 * tp l y_true y_pred + fp l y_true y_pred + fn l y_true y_pred))%Q.

Definition qsum (xs : list Q) : Q := fold_right Qplus 0%Q xs.

Definition labels_of (y_true y_pred : list label) : list label :=
  remove_dups (y_true ++ y_pred).

Definition f1_reference (y_true y_pred : list label) (avg : average)
  : result Q :=
  if negb (length y_true =? length y_pred)%nat then
    Err (ValueError "Found input variables with inconsistent numbers of samples")
  else
    let labels := labels_of y_true y_pred in
    match avg with
    | Macro =>
        Ok (qsum (map (fun l => f1_of l y_true y_pred) labels)
            / qnat (length labels))%Q
    | Weighted =>
        Ok (qsum (map (fun l => qnat (support l y_true y_pred)
                                * f1_of l y_true y_pred) labels)
            / qsum (map (fun l => qnat (support l y_true y_pred)) labels))%Q
    end.

End F1.

(** A report that only names its size; the layout of the real table is not
    needed anywhere. *)
Definition report_reference (y_true y_pred : list string) : result string :=
  if negb (length y_true =? length y_pred)%nat then
    Err (ValueError "Found input variables with inconsistent numbers of samples")
  else Ok "classification report".

(** [int(s)] on a plain decimal numeral with an optional minus sign. *)
Fixpoint digits_value (acc : Z) (s : string) : option Z :=
  match s with
  | EmptyString => Some acc
  | String c s' =>
      let n := Z.of_nat (nat_of_ascii c) in
      if ((48 <=? n) && (n <=? 57))%Z
      then digits_value (10 * acc + (n - 48)) s'
      else None
  end.

Definition decimal_int (v : json_scalar) : result Z :=
  match v with
  | JInt z => Ok z
  | JStr s =>
      let bad := Err (ValueError "invalid literal for int() with base 10") in
      match s with
      | EmptyString => bad
      | String "-" EmptyString => bad
      | String "-" rest =>
          match digits_value 0 rest with Some z => Ok (- z)%Z | None => bad end
      | _ => match digits_value 0 s with Some z => Ok z | None => bad end
      end
  end.

(** A stand-in for the linear classifier: it remembers the training rows and
    predicts the label of the training row closest in cosine similarity. *)
Definition memo_fit (svm : pyval) (X : list (list Q)) (y : list string)
  : result (list (list Q) * list string) :=
  if negb (length X =? length y)%nat then
    Err (ValueError "Found input variables with inconsistent numbers of samples")
  else match X with
       | [] => Err (ValueError "Found array with 0 sample(s)")
       | _ => Ok (X, y)
       end.

Definition memo_predict (model : list (list Q) * list string)
    (X : list (list Q)) : result (list string) :=
  match X with
  | [] => Err (ValueError "Found array with 0 sample(s)")
  | _ =>
      Ok (map (fun x => nth (nearest (fst model) x) (snd model) EmptyString) X)
  end.

(** Files are looked up in association lists. *)
Definition open_file {A} (files : list (string * A)) (path : string)
  : result A :=
  match dict_get files path with
  | Some a => Ok a
  | None => Err (Raised "FileNotFoundError" path)
  end.

Definition paths : DataPaths := {|
  ru_en_translation_test := "ru_en_translation_test.json";
  elibrary_oecd_full_train := "elibrary_oecd_full_train.csv";
  elibrary_oecd_full_test := "elibrary_oecd_full_test.csv";
  elibrary_grnti_full_train := "elibrary_grnti_full_train.csv";
  elibrary_grnti_full_test := "elibrary_grnti_full_test.csv";
  elibrary_oecd_ru_train := "elibrary_oecd_ru_train.csv";
  elibrary_oecd_ru_test := "elibrary_oecd_ru_test.csv";
  elibrary_grnti_ru_train := "elibrary_grnti_ru_train.csv";
  elibrary_grnti_ru_test := "elibrary_grnti_ru_test.csv";
  elibrary_oecd_en_train := "elibrary_oecd_en_train.csv";
  elibrary_oecd_en_test := "elibrary_oecd_en_test.csv";
  elibrary_grnti_en_train := "elibrary_grnti_en_train.csv";
  elibrary_grnti_en_test := "elibrary_grnti_en_test.csv"
|}.

Definition show_metrics (name : string) (results : Report) : list string :=
  [name].

Definition env
    (csv : list (string * list (Z * string)))
    (json : list (string * list (string * json_scalar)))
    (jsonl : list (string * gmap Z (list Q)))
  : Env (list Q) string := {|
  fitted := list (list Q) * list string;
  svm_fit := memo_fit;
  svm_predict := memo_predict;
  py_int := decimal_int;
  pd_read_csv := open_file csv;
  json_load := open_file json;
  data_paths := paths;
  embeddings_of_jsonl := open_file jsonl;
  metrics_lines := show_metrics
|}.

End Reference.

(** ** Cosine distance

    The search of line 308 is built with [n_neighbors=1, metric="cosine"]:
    one index per query, that of a candidate at least as close to the query as
    every candidate, in cosine distance. *)

(** [1 - q.c / (|q| |c|)]; a zero vector has similarity 0 with everything
    (division by zero is zero in [R]), as after scikit-learn's
    normalisation. *)
Definition cosine_distance (q c : list Q) : R :=
  (1 - Q2R (Reference.dot q c)
       / (sqrt (Q2R (Reference.dot q q)) * sqrt (Q2R (Reference.dot c c))))%R.

(** Candidate [c] is a nearest neighbour of [q] among [candidates]. *)
Definition cosine_nearest (candidates : list (list Q)) (q c : list Q)
  : Prop :=
  forall c', c' ∈ candidates -> (cosine_distance q c <= cosine_distance q c')%R.

Class CosineSearch (NN : NearestNeighbors (list Q)) : Prop := {
  kneighbors_nearest :
    forall n_jobs results_embs queries_embs top_index i q j,
      kneighbors n_jobs results_embs queries_embs = Ok top_index ->
      queries_embs !! i = Some q ->
      top_index !! i = Some j ->
      exists c, results_embs !! j = Some c
                /\ cosine_nearest results_embs q c
}.

(** ** Vocabulary of the properties *)

Section Vocabulary.

Context {vec label : Type}.
Context {NN : NearestNeighbors vec} {MT : Metrics label} {EV : Env vec label}.

Local Abbreviation run := (M (event vec label)).

(** Number of queries whose neighbour sits at their own index. *)
Definition aligned_count (top_index : list nat) : nat :=
  length (filter (fun i => top_index !! i = Some i)
                 (seq 0 (length top_index))).

(** The statement of C1 for arbitrary arrays. *)
Definition recall_as_claimed
    (queries_embs results_embs : list vec) (n_jobs : Z) : Prop :=
  exists top_index recall,
    kneighbors n_jobs results_embs queries_embs = Ok top_index
    /\ translation_search queries_embs results_embs n_jobs
       = Ok [("recall@1", Float recall)]
    /\ (recall == inject_Z (Z.of_nat (aligned_count top_index))
                  / inject_Z (Z.of_nat (length queries_embs)))%Q
    /\ (0 <= recall /\ recall <= 1)%Q
    /\ ((recall == 1)%Q <->
        forall i, i < length queries_embs -> top_index !! i = Some i).

(** [returns P m]: a value returned by [m] satisfies [P]. *)
Definition returns {A} (P : A -> Prop) (m : run A) : Prop :=
  forall a, outcome m = Ok a -> P a.

(** [quiet m]: [m] writes nothing to the console. *)
Definition quiet {A} (m : run A) : Prop := console (trace m) = [].

(** [reads files m]: [m] opens the files of [files] in that order, all of
    them when it returns and an initial part of them when it raises. *)
Definition reads {A} (files : list string) (m : run A) : Prop :=
  files_read (trace m) `prefix_of` files
  /\ (is_ok (outcome m) = true -> files_read (trace m) = files).

(** The models that [classify] can hand to [fit]. *)
Definition linear_svc (max_iter : Z) : pyval :=
  PObj "LinearSVC" [("loss", PStr "squared_hinge");
                    ("max_iter", PInt max_iter);
                    ("random_state", PInt 42)].

Definition grid_search (max_iter n_jobs : Z) (silent : bool) (grid : list Q)
  : pyval :=
  PObj "GridSearchCV" [("estimator", linear_svc max_iter);
                       ("cv", PInt 3);
                       ("param_grid", PDict [("C", PArray grid)]);
                       ("verbose", PBool (negb silent));
                       ("n_jobs", PInt n_jobs)].

Definition svm_of (grid_search_cv : bool) (max_iter n_jobs : Z) (silent : bool)
  : pyval :=
  if grid_search_cv then grid_search max_iter n_jobs silent C_grid
  else linear_svc max_iter.

(** [embeddings[int(id_)]] *)
Definition embedding_of (embeddings : gmap Z vec) (id_ : json_scalar)
  : result vec :=
  (k <- py_int id_ ;; getitem embeddings k)%result.

(** The catalog: the keys each family of tasks adds, in the order in which
    the entry point runs the families. *)
Definition retrieval_keys : list string :=
  ["ru_en_translation_search"; "en_ru_translation_search"].
Definition full_keys : list string :=
  ["elibrary_oecd_full"; "elibrary_grnti_full"].
Definition ru_keys : list string :=
  ["elibrary_oecd_ru"; "elibrary_grnti_ru"].
Definition en_keys : list string :=
  ["elibrary_oecd_en"; "elibrary_grnti_en"].

Definition keys_if (b : bool) (keys : list string) : list string :=
  if b then keys else [].

Definition expected_keys (metrics : selector) : list string :=
  keys_if (selected metrics "translation_search") retrieval_keys
  ++ keys_if (selected metrics "full_classification") full_keys
  ++ keys_if (selected metrics "ru_classification") ru_keys
  ++ keys_if (selected metrics "en_classification") en_keys.

Definition files_if (b : bool) (files : list string) : list string :=
  if b then files else [].

(** The files of each family, in the order in which they are opened. *)
Definition expected_files (embeddings_path : string) (metrics : selector)
  : list string :=
  [embeddings_path]
  ++ files_if (selected metrics "translation_search")
       [ru_en_translation_test data_paths]
  ++ files_if (selected metrics "full_classification")
       [elibrary_oecd_full_train data_paths; elibrary_oecd_full_test data_paths;
        elibrary_grnti_full_train data_paths;
        elibrary_grnti_full_test data_paths]
  ++ files_if (selected metrics "ru_classification")
       [elibrary_oecd_ru_train data_paths; elibrary_oecd_ru_test data_paths;
        elibrary_grnti_ru_train data_paths; elibrary_grnti_ru_test data_paths]
  ++ files_if (selected metrics "en_classification")
       [elibrary_oecd_en_train data_paths; elibrary_oecd_en_test data_paths;
        elibrary_grnti_en_train data_paths; elibrary_grnti_en_test data_paths].

(** The names of the four families of tasks. *)
Definition catalog : list string :=
  ["translation_search"; "full_classification";
   "ru_classification"; "en_classification"].

(** An entry of the report written by a retrieval task: the single key
    [recall@1], with a value between 0 and 1. *)
Definition recall_entry (r : MetricResult) : Prop :=
  exists v, r = [("recall@1", Float v)] /\ (0 <= v /\ v <= 1)%Q.

(** An entry of the report written by a classification task. *)
Definition scores_entry (get_cls_report : bool) (r : MetricResult) : Prop :=
  dict_keys r = ["macro_f1"; "weighted_f1"]
                ++ (if get_cls_report then ["cls_report"] else [])
  /\ exists macro_f1 weighted_f1,
       dict_get r "macro_f1" = Some (Float macro_f1)
       /\ dict_get r "weighted_f1" = Some (Float weighted_f1)
       /\ (0 <= macro_f1 /\ macro_f1 <= 1)%Q
       /\ (0 <= weighted_f1 /\ weighted_f1 <= 1)%Q.

Definition entry_ok (get_cls_report : bool) (entry : string * MetricResult)
  : Prop :=
  if bool_decide (entry.1 ∈ retrieval_keys) then recall_entry entry.2
  else scores_entry get_cls_report entry.2.

(** What a run does apart from writing to the console. *)
Definition effects (t : list (event vec label)) : list (event vec label) :=
  omap (fun e => match e with Stdout _ => None | _ => Some e end) t.

(** Two runs that differ at most in what they write to the console. *)
Definition same_effects {A} (m m' : run A) : Prop :=
  outcome m = outcome m' /\ effects (trace m) = effects (trace m').


(** The data handed to [fit], call after call. *)
Definition fit_data (t : list (event vec label))
  : list (list vec * list label) :=
  omap (fun e => match e with Fit _ X y => Some (X, y) | _ => None end) t.

(** [fits svm n m]: every model that [m] hands to [fit] is [svm]; there are
    [n] such calls when [m] returns and at most [n] when it raises. *)
Definition fits {A} (svm : pyval) (n : nat) (m : run A) : Prop :=
  Forall (fun model => model = svm) (models_fitted (trace m))
  /\ length (models_fitted (trace m)) <= n
  /\ (is_ok (outcome m) = true -> length (models_fitted (trace m)) = n).

(** [succeeds m]: [m] returns a value. *)
Definition succeeds {A} (m : run A) : Prop := is_ok (outcome m) = true.

(** The two retrieval tasks go through: the two arrays are built from the
    translation file and the search yields a recall in both directions. *)
Definition retrieval_returns (embeddings : gmap Z vec) (n_jobs : Z) : Prop :=
  exists ru_embs en_embs,
    outcome (get_embeddings_for_translation_search
               embeddings (ru_en_translation_test data_paths))
      = Ok (ru_embs, en_embs)
    /\ is_ok (translation_search ru_embs en_embs n_jobs) = true
    /\ is_ok (translation_search en_embs ru_embs n_jobs) = true.

(** A classification task goes through: the dataset is assembled from the two
    label files and [classify] returns on it. *)
Definition task_returns (embeddings : gmap Z vec)
    (train_path test_path : string)
    (get_cls_report grid_search_cv : bool) (n_jobs max_iter : Z)
    (silent : bool) : Prop :=
  exists X_train X_test y_train y_test,
    outcome (get_X_y_for_classification embeddings train_path test_path)
      = Ok (X_train, X_test, y_train, y_test)
    /\ is_ok (outcome (classify X_train y_train X_test y_test
                         grid_search_cv n_jobs max_iter get_cls_report silent))
       = true.

End Vocabulary.

(** ** A small benchmark, to be run with the reference implementations *)

Module Sample.

Definition store : gmap Z (list Q) :=
  list_to_map [(1%Z, [1; 0]%Q); (2%Z, [0; 1]%Q);
               (3%Z, [9 # 10; 1 # 10]%Q); (4%Z, [1 # 10; 9 # 10]%Q)].

Definition rows : list (Z * string) :=
  [(1, "A"); (2, "B"); (3, "A"); (4, "B")]%Z.

Definition csv_files : list (string * list (Z * string)) :=
  [("elibrary_oecd_full_train.csv", rows);
   ("elibrary_oecd_full_test.csv", rows);
   ("elibrary_grnti_full_train.csv", rows);
   ("elibrary_grnti_full_test.csv", rows);
   ("elibrary_oecd_ru_train.csv", rows);
   ("elibrary_oecd_ru_test.csv", rows);
   ("elibrary_grnti_ru_train.csv", rows);
   ("elibrary_grnti_ru_test.csv", rows);
   ("elibrary_oecd_en_train.csv", rows);
   ("elibrary_oecd_en_test.csv", rows);
   ("elibrary_grnti_en_train.csv", rows);
   ("elibrary_grnti_en_test.csv", rows);
   ("dangling.csv", [(1, "A"); (99, "B")]%Z)].

Definition pairs : list (string * json_scalar) :=
  [("1", JInt 3); ("2", JStr "4")].

Definition json_files : list (string * list (string * json_scalar)) :=
  [("ru_en_translation_test.json", pairs)].

Definition jsonl_files : list (string * gmap Z (list Q)) :=
  [("embeddings.jsonl", store)].

Definition world : Env (list Q) string :=
  Reference.env csv_files json_files jsonl_files.

End Sample.


(** * Properties *)

(** ** Counting the positions that match *)

Lemma length_nonzero_from k mask :
  length (Np.nonzero_from k mask) = length (filter (fun b => b = true) mask).
Proof.
  revert k. induction mask as [|[] mask IH]; intros k; cbn [Np.nonzero_from].
  - done.
  - rewrite filter_cons_True by done. cbn [length]. by rewrite IH.
  - rewrite filter_cons_False by done. apply IH.
Qed.

Lemma length_filter_in_iff {A} (P1 P2 : A -> Prop)
    `{!forall x, Decision (P1 x), !forall x, Decision (P2 x)} (l : list A) :
  (forall x, x ∈ l -> P1 x <-> P2 x) ->
  length (filter P1 l) = length (filter P2 l).
Proof.
  induction l as [|a l IH]; intros Hiff; [done|].
  assert (Ha : P1 a <-> P2 a) by (apply Hiff; left).
  assert (IH' : length (filter P1 l) = length (filter P2 l))
    by (apply IH; intros x Hx; apply Hiff; by right).
  destruct (decide (P1 a)).
  - rewrite !filter_cons_True by tauto. cbn [length]. by rewrite IH'.
  - rewrite !filter_cons_False by tauto. done.
Qed.

Lemma hits_shift (top_index : list nat) (k : nat) :
  length (filter (fun b => b = true)
                 (zip_with Nat.eqb top_index (seq k (length top_index))))
  = length (filter (fun i => top_index !! (i - k) = Some i)
                   (seq k (length top_index))).
Proof.
  revert k. induction top_index as [|j t IH]; intros k; [done|].
  cbn [length seq zip_with].
  assert (Htail :
    length (filter (fun i => (j :: t) !! (i - k) = Some i) (seq (S k) (length t)))
    = length (filter (fun i => t !! (i - S k) = Some i) (seq (S k) (length t)))).
  { apply length_filter_in_iff. intros i Hi.
    apply elem_of_seq in Hi.
    replace (i - k) with (S (i - S k)) by lia. done. }
  destruct (Nat.eqb_spec j k) as [->|Hne].
  - rewrite filter_cons_True by done.
    rewrite (filter_cons_True (fun i => (k :: t) !! (i - k) = Some i))
      by (by rewrite Nat.sub_diag).
    cbn [length]. by rewrite IH, Htail.
  - rewrite filter_cons_False by done.
    rewrite (filter_cons_False (fun i => (j :: t) !! (i - k) = Some i))
      by (rewrite Nat.sub_diag; simpl; congruence).
    by rewrite IH, Htail.
Qed.

Lemma hits_aligned (top_index : list nat) :
  length (Np.nonzero (zip_with Nat.eqb top_index
                                (Np.arange (length top_index))))
  = aligned_count top_index.
Proof.
  unfold Np.nonzero, Np.arange, aligned_count.
  rewrite length_nonzero_from, hits_shift.
  apply length_filter_in_iff. intros i _. by rewrite Nat.sub_0_r.
Qed.

Lemma aligned_count_le top_index :
  aligned_count top_index <= length top_index.
Proof.
  unfold aligned_count.
  etransitivity; [apply length_filter|]. by rewrite length_seq.
Qed.

Lemma length_filter_all {A} (P : A -> Prop) `{!forall x, Decision (P x)}
    (l : list A) :
  length (filter P l) = length l <-> Forall P l.
Proof.
  induction l as [|a l IH]; [by split|].
  destruct (decide (P a)) as [Ha|Ha].
  - rewrite filter_cons_True by done. cbn [length]. rewrite Forall_cons.
    split; [intros Hlen; split; [done|apply IH; lia]|].
    intros [_ Hl]. f_equal. by apply IH.
  - rewrite filter_cons_False by done. cbn [length].
    pose proof (length_filter P l). rewrite Forall_cons.
    split; [lia|tauto].
Qed.

Lemma aligned_count_full top_index :
  aligned_count top_index = length top_index <->
  forall i, i < length top_index -> top_index !! i = Some i.
Proof.
  unfold aligned_count. split.
  - intros Hlen i Hi.
    assert (Hall : Forall (fun i => top_index !! i = Some i)
                          (seq 0 (length top_index)))
      by (apply (proj1 (length_filter_all _ _)); by rewrite length_seq).
    rewrite Forall_seq in Hall. apply Hall. lia.
  - intros Hall.
    transitivity (length (seq 0 (length top_index))); [|apply length_seq].
    apply (proj2 (length_filter_all _ _)), Forall_seq.
    intros i Hi. apply Hall. lia.
Qed.

(** ** Quotients of two counts *)

Lemma qnat_pos (n : nat) : 0 < n -> (0 < inject_Z (Z.of_nat n))%Q.
Proof. intros Hn. change 0%Q with (inject_Z 0). rewrite <- Zlt_Qlt. lia. Qed.

Lemma ratio_range (c n : nat) :
  c <= n -> 0 < n ->
  (0 <= inject_Z (Z.of_nat c) / inject_Z (Z.of_nat n)
   /\ inject_Z (Z.of_nat c) / inject_Z (Z.of_nat n) <= 1)%Q.
Proof.
  intros Hc Hn. pose proof (qnat_pos n Hn) as Hpos. split.
  - apply Qle_shift_div_l; [done|]. rewrite Qmult_0_l.
    change 0%Q with (inject_Z 0). rewrite <- Zle_Qle. lia.
  - apply Qle_shift_div_r; [done|]. rewrite Qmult_1_l.
    rewrite <- Zle_Qle. lia.
Qed.

Lemma ratio_one (c n : nat) :
  0 < n ->
  (inject_Z (Z.of_nat c) / inject_Z (Z.of_nat n) == 1)%Q <-> c = n.
Proof.
  intros Hn. pose proof (qnat_pos n Hn) as Hpos.
  assert (Hnz : ~ (inject_Z (Z.of_nat n) == 0)%Q).
  { intros Heq. rewrite Heq in Hpos. by apply Qlt_irrefl in Hpos. }
  split.
  - intros Heq.
    assert (Hcn : (inject_Z (Z.of_nat c) == inject_Z (Z.of_nat n))%Q).
    { rewrite <- (Qmult_div_r (inject_Z (Z.of_nat c)) _ Hnz).
      rewrite Heq. apply Qmult_1_r. }
    unfold Qeq in Hcn. simpl in Hcn. lia.
  - intros ->. by apply Qmult_inv_r.
Qed.

(** ** Reference search: the law of the interface *)

Lemma cosine_kneighbors_length n_jobs results_embs queries_embs top_index :
  Reference.cosine_kneighbors n_jobs results_embs queries_embs = Ok top_index ->
  length top_index = length queries_embs.
Proof.
  unfold Reference.cosine_kneighbors.
  destruct results_embs, queries_embs; intros [= <-].
  cbn [length map]. f_equal. apply length_map.
Qed.

Definition cosine_search : NearestNeighbors (list Q) := {|
  kneighbors := Reference.cosine_kneighbors;
  kneighbors_length := cosine_kneighbors_length
|}.

(** The same search without the check on empty arrays. *)
Definition unchecked_search : NearestNeighbors (list Q) := {|
  kneighbors := fun _ results_embs queries_embs =>
    Ok (map (Reference.nearest results_embs) queries_embs);
  kneighbors_length := fun _ results_embs queries_embs top_index Heq =>
    match Heq in _ = r return
      match r with Ok t => length t = length queries_embs | Err _ => True end
    with eq_refl => length_map _ _ end
|}.

(** ** Reference search: nearest under cosine distance *)

Lemma argmax_from_max (keys : list Q) (k best : nat) (best_key : Q) :
  (Reference.argmax_from k best best_key keys = best
   /\ Forall (fun x => (x <= best_key)%Q) keys)
  \/ exists i x,
       keys !! i = Some x
       /\ Reference.argmax_from k best best_key keys = k + i
       /\ (best_key <= x)%Q
       /\ Forall (fun y => (y <= x)%Q) keys.
Proof.
  revert k best best_key.
  induction keys as [|x keys IH]; intros k best best_key;
    cbn [Reference.argmax_from].
  - left. by split.
  - destruct (Qle_bool x best_key) eqn:Hle.
    + apply Qle_bool_iff in Hle.
      destruct (IH (S k) best best_key)
        as [[-> Hall]|(i & y & Hi & -> & Hbest & Hall)].
      * left. split; [done|]. by constructor.
      * right. exists (S i), y. split_and!; [done|lia|done|].
        constructor; [by apply Qle_trans with best_key|done].
    + assert (Hlt : (best_key <= x)%Q).
      { apply Qlt_le_weak, Qnot_le_lt. intros Habs.
        apply Qle_bool_iff in Habs. congruence. }
      destruct (IH (S k) k x) as [[-> Hall]|(i & y & Hi & -> & Hbest & Hall)].
      * right. exists 0, x. split_and!; [done|lia|done|].
        constructor; [apply Qle_refl|done].
      * right. exists (S i), y.
        split_and!; [done|lia|by apply Qle_trans with x|].
        by constructor.
Qed.

Lemma nearest_max_key (candidates : list (list Q)) (q : list Q) :
  candidates <> [] ->
  exists c,
    candidates !! Reference.nearest candidates q = Some c
    /\ forall c', c' ∈ candidates ->
         (Reference.similarity_key q c' <= Reference.similarity_key q c)%Q.
Proof.
  intros Hne. unfold Reference.nearest.
  destruct candidates as [|c0 candidates]; [done|]. cbn [map].
  destruct (argmax_from_max
              (map (Reference.similarity_key q) candidates) 1 0
              (Reference.similarity_key q c0))
    as [[-> Hall]|(i & x & Hi & -> & Hbest & Hall)].
  - exists c0. split; [done|]. intros c' [->|Hc']%elem_of_cons.
    + apply Qle_refl.
    + rewrite Forall_forall in Hall. apply Hall.
      by apply list_elem_of_fmap_2.
  - rewrite list_lookup_fmap in Hi.
    destruct (candidates !! i) as [c|] eqn:Hc; [|done].
    injection Hi as <-. exists c. split; [done|].
    intros c' [->|Hc']%elem_of_cons; [done|].
    rewrite Forall_forall in Hall. apply Hall. by apply list_elem_of_fmap_2.
Qed.

Lemma dot_self_nonneg (c : list Q) : (0 <= Reference.dot c c)%Q.
Proof.
  unfold Reference.dot.
  induction c as [|x c IH]; cbn [zip_with fold_right]; [apply Qle_refl|].
  nra.
Qed.

Lemma Rinv_nonneg (r : R) : (0 <= r -> 0 <= / r)%R.
Proof.
  intros [Hpos| <-].
  - left. by apply Rinv_0_lt_compat.
  - rewrite Rinv_0. apply Rle_refl.
Qed.

Lemma Q2R_inv_total (x : Q) : Q2R (/ x) = (/ Q2R x)%R.
Proof.
  destruct (Qeq_dec x 0) as [Hz|Hnz]; [|by apply Q2R_inv].
  assert (Hinv : (/ x == 0)%Q).
  { destruct x as [[|p|p] d]; try done. }
  rewrite (Qeq_eqR _ _ Hinv), (Qeq_eqR _ _ Hz), RMicromega.Q2R_0.
  by rewrite Rinv_0.
Qed.

(** The rank used by the reference search is the signed square of
    [q.c / |c|]. *)
Lemma similarity_key_real (q c : list Q) :
  let a := Q2R (Reference.dot q c) in
  let t := (a * / sqrt (Q2R (Reference.dot c c)))%R in
  Q2R (Reference.similarity_key q c)
  = (if Qle_bool 0 (Reference.dot q c) then t * t else - (t * t))%R.
Proof.
  intros a t. unfold Reference.similarity_key, Qdiv.
  pose proof (dot_self_nonneg c) as Hn. apply Qle_Rle in Hn.
  rewrite RMicromega.Q2R_0 in Hn.
  assert (Hsq : (t * t = a * a * / Q2R (Reference.dot c c))%R).
  { subst t.
    replace (a * / sqrt (Q2R (Reference.dot c c))
             * (a * / sqrt (Q2R (Reference.dot c c))))%R
      with (a * a * (/ sqrt (Q2R (Reference.dot c c))
                     * / sqrt (Q2R (Reference.dot c c))))%R by Lra.lra.
    by rewrite <- Rinv_mult, sqrt_sqrt. }
  rewrite Q2R_mult, Q2R_inv_total, Hsq.
  destruct (Qle_bool 0 (Reference.dot q c));
    rewrite ?Q2R_opp, Q2R_mult; subst a; Lra.lra.
Qed.

Lemma signed_square_order (t t' : R) (pos pos' : bool) :
  (if pos then 0 <= t else t <= 0)%R ->
  (if pos' then 0 <= t' else t' <= 0)%R ->
  ((if pos' then t' * t' else - (t' * t'))
   <= (if pos then t * t else - (t * t)))%R ->
  (t' <= t)%R.
Proof.
  pose proof (Rle_0_sqr t) as Hsq. pose proof (Rle_0_sqr t') as Hsq'.
  unfold Rsqr in Hsq, Hsq'.
  destruct pos, pos'; intros Ht Ht' Hle.
  - Lra.nra.
  - Lra.lra.
  - assert (Hz : (t * t = 0)%R) by Lra.lra.
    assert (Hz' : (t' * t' = 0)%R) by Lra.lra.
    apply Rmult_integral in Hz, Hz'. Lra.lra.
  - assert (Hneg : (- t <= - t')%R) by Lra.nra. Lra.lra.
Qed.

Lemma similarity_key_order (q c c' : list Q) :
  (Reference.similarity_key q c' <= Reference.similarity_key q c)%Q ->
  (cosine_distance q c <= cosine_distance q c')%R.
Proof.
  intros Hkey. apply Qle_Rle in Hkey.
  rewrite !similarity_key_real in Hkey. unfold cosine_distance.
  set (a := Q2R (Reference.dot q c)) in *.
  set (a' := Q2R (Reference.dot q c')) in *.
  set (s := (/ sqrt (Q2R (Reference.dot c c)))%R) in *.
  set (s' := (/ sqrt (Q2R (Reference.dot c' c')))%R) in *.
  set (w := (/ sqrt (Q2R (Reference.dot q q)))%R).
  assert (Hs : (0 <= s)%R) by apply Rinv_nonneg, sqrt_pos.
  assert (Hs' : (0 <= s')%R) by apply Rinv_nonneg, sqrt_pos.
  assert (Hw : (0 <= w)%R) by apply Rinv_nonneg, sqrt_pos.
  assert (Ha : if Qle_bool 0 (Reference.dot q c)
               then (0 <= a)%R else (a <= 0)%R).
  { destruct (Qle_bool 0 (Reference.dot q c)) eqn:Hsign.
    - apply Qle_bool_iff, Qle_Rle in Hsign.
      by rewrite RMicromega.Q2R_0 in Hsign.
    - assert (Hneg : (Reference.dot q c <= 0)%Q).
      { apply Qlt_le_weak, Qnot_le_lt. intros Habs.
        apply Qle_bool_iff in Habs. congruence. }
      apply Qle_Rle in Hneg. by rewrite RMicromega.Q2R_0 in Hneg. }
  assert (Ha' : if Qle_bool 0 (Reference.dot q c')
                then (0 <= a')%R else (a' <= 0)%R).
  { destruct (Qle_bool 0 (Reference.dot q c')) eqn:Hsign.
    - apply Qle_bool_iff, Qle_Rle in Hsign.
      by rewrite RMicromega.Q2R_0 in Hsign.
    - assert (Hneg : (Reference.dot q c' <= 0)%Q).
      { apply Qlt_le_weak, Qnot_le_lt. intros Habs.
        apply Qle_bool_iff in Habs. congruence. }
      apply Qle_Rle in Hneg. by rewrite RMicromega.Q2R_0 in Hneg. }
  assert (Ht : (a' * s' <= a * s)%R).
  { apply (signed_square_order _ _ (Qle_bool 0 (Reference.dot q c))
                               (Qle_bool 0 (Reference.dot q c')));
      [| |exact Hkey].
    - destruct (Qle_bool 0 (Reference.dot q c)); Lra.nra.
    - destruct (Qle_bool 0 (Reference.dot q c')); Lra.nra. }
  unfold Rdiv. rewrite !Rinv_mult. fold w s s'.
  assert (Hprod : (a' * s' * w <= a * s * w)%R)
    by (by apply Rmult_le_compat_r).
  Lra.lra.
Qed.

Lemma cosine_kneighbors_nearest
    n_jobs results_embs queries_embs top_index i q j :
  Reference.cosine_kneighbors n_jobs results_embs queries_embs = Ok top_index ->
  queries_embs !! i = Some q ->
  top_index !! i = Some j ->
  exists c, results_embs !! j = Some c /\ cosine_nearest results_embs q c.
Proof.
  unfold Reference.cosine_kneighbors. intros Hnn Hq Hj.
  assert (Hne : results_embs <> []) by (by destruct results_embs).
  assert (Htop : top_index = map (Reference.nearest results_embs) queries_embs).
  { destruct results_embs, queries_embs; try discriminate Hnn.
    by injection Hnn. }
  subst top_index. rewrite list_lookup_fmap, Hq in Hj. injection Hj as <-.
  destruct (nearest_max_key results_embs q Hne) as (c & Hc & Hmax).
  exists c. split; [done|]. intros c' Hc'.
  by apply similarity_key_order, Hmax.
Qed.

Lemma cosine_search_nearest : CosineSearch cosine_search.
Proof. constructor. exact cosine_kneighbors_nearest. Qed.

(** ** Retrieval *)

Section Retrieval.

Context {vec : Type} {NN : NearestNeighbors vec}.

Lemma broadcast_same_shape (a b : list nat) :
  length a = length b -> Np.eq a b = Ok (zip_with Nat.eqb a b).
Proof. intros Hlen. unfold Np.eq. by rewrite (proj2 (Nat.eqb_eq _ _) Hlen). Qed.

(** On two arrays with the same, non-zero, number of rows, the value returned
    is the number of positions at which the search answered the position
    itself, divided by the number of queries. *)
Lemma translation_search_counts_hits
    (queries_embs results_embs : list vec) (n_jobs : Z) (top_index : list nat) :
  kneighbors n_jobs results_embs queries_embs = Ok top_index ->
  length queries_embs = length results_embs ->
  queries_embs <> [] ->
  let recall := (inject_Z (Z.of_nat (aligned_count top_index))
                 / inject_Z (Z.of_nat (length queries_embs)))%Q in
  translation_search queries_embs results_embs n_jobs
    = Ok [("recall@1", Float recall)]
  /\ (0 <= recall /\ recall <= 1)%Q
  /\ ((recall == 1)%Q <->
      forall i, i < length queries_embs -> top_index !! i = Some i).
Proof.
  intros Hnn Hlen Hne recall.
  pose proof (kneighbors_length _ _ _ _ Hnn) as Htop.
  assert (Hpos : 0 < length queries_embs)
    by (destruct queries_embs; [done | simpl; lia]).
  split; [|split].
  - unfold translation_search. rewrite Hnn. cbn [rbind].
    rewrite broadcast_same_shape
      by (unfold Np.arange; rewrite length_seq; congruence).
    cbn [rbind]. unfold Py.truediv, Np.arange. rewrite length_seq.
    destruct (Z.eqb_spec (Z.of_nat (length results_embs)) 0) as [Hz|_]; [lia|].
    cbn [rbind]. subst recall.
    rewrite <- Hlen, <- Htop. change (seq 0 (length top_index))
      with (Np.arange (length top_index)).
    by rewrite hits_aligned.
  - apply ratio_range; [|done].
    rewrite <- Htop. apply aligned_count_le.
  - subst recall. rewrite ratio_one by done.
    rewrite <- Htop. apply aligned_count_full.
Qed.

(** C2, as the code has it.  On an empty query array and an empty candidate
    array, which is what an empty translation mapping gives,
    [translation_search] returns no value: the exception of the neighbour
    search is the outcome when that call raises, and otherwise the final
    division raises [ZeroDivisionError]. *)
Theorem translation_search_empty (n_jobs : Z) :
  exists e,
    translation_search (vec := vec) [] [] n_jobs = Err e
    /\ (kneighbors n_jobs [] [] = Err e
        \/ (is_ok (kneighbors (vec := vec) n_jobs [] []) = true
            /\ e = ZeroDivisionError)).
Proof.
  unfold translation_search.
  destruct (kneighbors n_jobs [] []) as [top_index|e] eqn:Hnn.
  - apply kneighbors_length in Hnn. destruct top_index; [|done].
    exists ZeroDivisionError. split; [done|]. right. done.
  - exists e. split; [done|]. by left.
Qed.

End Retrieval.

(** ** Retrieval under cosine distance *)

Section CosineRetrieval.

Context {NN : NearestNeighbors (list Q)} {CS : CosineSearch NN}.

(** C1, as the code has it.  When the two arrays have the same, non-zero,
    number of rows and the search answers [top_index], every [top_index[i]]
    is the index of a nearest neighbour of query [i] among the candidates
    under cosine distance (the candidate at index [i] itself whenever that one
    is strictly the nearest), and [translation_search] returns the single
    entry [recall@1], equal to the number of queries whose nearest neighbour
    so answered is the candidate at their own index, divided by the number of
    queries; the value lies between 0 and 1, and is 1 exactly when every
    query has its nearest neighbour at its own index. *)
Theorem translation_search_recall
    (queries_embs results_embs : list (list Q)) (n_jobs : Z)
    (top_index : list nat) :
  kneighbors n_jobs results_embs queries_embs = Ok top_index ->
  length queries_embs = length results_embs ->
  queries_embs <> [] ->
  let recall := (inject_Z (Z.of_nat (aligned_count top_index))
                 / inject_Z (Z.of_nat (length queries_embs)))%Q in
  translation_search queries_embs results_embs n_jobs
    = Ok [("recall@1", Float recall)]
  /\ (forall i q, queries_embs !! i = Some q ->
        exists j c, top_index !! i = Some j
                    /\ results_embs !! j = Some c
                    /\ cosine_nearest results_embs q c)
  /\ (forall i q c,
        queries_embs !! i = Some q -> results_embs !! i = Some c ->
        (forall j c', j <> i -> results_embs !! j = Some c' ->
                      (cosine_distance q c < cosine_distance q c')%R) ->
        top_index !! i = Some i)
  /\ (0 <= recall /\ recall <= 1)%Q
  /\ ((recall == 1)%Q <->
      forall i, i < length queries_embs -> top_index !! i = Some i).
Proof.
  intros Hnn Hlen Hne recall.
  pose proof (kneighbors_length _ _ _ _ Hnn) as Htop.
  assert (Hnearest : forall i q, queries_embs !! i = Some q ->
            exists j c, top_index !! i = Some j
                        /\ results_embs !! j = Some c
                        /\ cosine_nearest results_embs q c).
  { intros i q Hq.
    destruct (lookup_lt_is_Some_2 top_index i) as [j Hj].
    { rewrite Htop. by eapply lookup_lt_Some. }
    destruct (kneighbors_nearest _ _ _ _ _ _ _ Hnn Hq Hj) as (c & Hc & Hmin).
    by exists j, c. }
  destruct (translation_search_counts_hits
              queries_embs results_embs n_jobs top_index Hnn Hlen Hne)
    as (Hvalue & Hrange & Hone).
  split; [exact Hvalue|]. split; [exact Hnearest|].
  split; [|by split].
  intros i q c Hq Hc Hstrict.
  destruct (Hnearest i q Hq) as (j & c' & Hj & Hc' & Hmin).
  destruct (decide (j = i)) as [->|Hji]; [done|].
  exfalso. specialize (Hstrict j c' Hji Hc').
  specialize (Hmin c (list_elem_of_lookup_2 _ _ _ Hc)).
  Lra.lra.
Qed.

End CosineRetrieval.

Lemma translation_search_recall_witness :
  let queries := [[1; 0]; [0; 1]; [1; 1]]%Q in
  let results := [[2; 0]; [3; 1]; [0; 5]]%Q in
  let top_index := [0; 2; 1] in
  let recall := (inject_Z 1 / inject_Z 3)%Q in
  @translation_search _ cosine_search queries results (-1)
    = Ok [("recall@1", Float recall)]
  /\ (forall i q, queries !! i = Some q ->
        exists j c, top_index !! i = Some j
                    /\ results !! j = Some c
                    /\ cosine_nearest results q c)
  /\ (forall i q c,
        queries !! i = Some q -> results !! i = Some c ->
        (forall j c', j <> i -> results !! j = Some c' ->
                      (cosine_distance q c < cosine_distance q c')%R) ->
        top_index !! i = Some i)
  /\ (0 <= recall /\ recall <= 1)%Q
  /\ ((recall == 1)%Q <->
      forall i, i < 3 -> top_index !! i = Some i).
Proof.
  intros queries results top_index recall.
  apply (@translation_search_recall cosine_search cosine_search_nearest
           queries results (-1) top_index).
  - vm_compute. reflexivity.
  - reflexivity.
  - discriminate.
Defined.

(** Two queries against one candidate: both neighbours are candidate 0, the
    comparison with [arange(1)] is broadcast to both, and the quotient is
    2 / 1. *)
Lemma translation_search_unequal_lengths :
  @translation_search _ cosine_search [[1; 0]; [0; 1]]%Q [[1; 0]]%Q (-1)
    = Ok [("recall@1", Float (inject_Z 2 / inject_Z 1))]
  /\ ~ @recall_as_claimed _ cosine_search [[1; 0]; [0; 1]]%Q [[1; 0]]%Q (-1).
Proof.
  split; [reflexivity|].
  intros (top_index & recall & _ & Hts & _ & [_ Hle] & _).
  injection Hts as <-. vm_compute in Hle. by apply Hle.
Qed.

(** On empty arrays the outcome is the library's [ValueError], or
    [ZeroDivisionError] when the library accepts them; in neither case an
    [EmptyInputError]. *)
Lemma empty_arrays_error_class :
  @translation_search _ unchecked_search [] [] (-1) = Err ZeroDivisionError
  /\ ~ (exists e, @translation_search _ cosine_search [] [] (-1) = Err e
                  /\ exn_class e = "EmptyInputError")
  /\ ~ (exists e, @translation_search _ unchecked_search [] [] (-1) = Err e
                  /\ exn_class e = "EmptyInputError").
Proof.
  split; [reflexivity|].
  split; intros (e & Hts & Hcls); injection Hts as <-; discriminate Hcls.
Qed.

(** ** Runs: outcome and trace of a sequence *)

Lemma outcome_bind {E A B} (m : M E A) (f : A -> M E B) :
  outcome (bind m f)
  = match outcome m with
    | Ok a => outcome (f a)
    | Err e => Err e
    end.
Proof.
  destruct m as [t [a|e]]; cbn; [|done]. by destruct (f a).
Qed.

Lemma trace_bind {E A B} (m : M E A) (f : A -> M E B) :
  trace (bind m f)
  = trace m ++ match outcome m with
               | Ok a => trace (f a)
               | Err _ => []
               end.
Proof.
  destruct m as [t [a|e]]; cbn; [|by rewrite app_nil_r]. by destruct (f a).
Qed.

(** ** Loops that may raise *)

Lemma rmap_ok {A B} (f : A -> result B) xs ys :
  rmap f xs = Ok ys <-> Forall2 (fun x y => f x = Ok y) xs ys.
Proof.
  revert ys. induction xs as [|x xs IH]; intros ys; cbn [rmap].
  - split; [intros [= <-]; constructor | by inversion 1].
  - destruct (f x) as [y|e] eqn:Hfx.
    + destruct (rmap f xs) as [ys'|e] eqn:Hrest.
      * split.
        -- intros [= <-]. constructor; [done|]. by apply IH.
        -- inversion 1 as [|? y' ? ys'' Hy Hys]; subst.
           rewrite Hfx in Hy. injection Hy as <-.
           apply IH in Hys. by injection Hys as <-.
      * split; [done|].
        inversion 1 as [|? y' ? ys'' Hy Hys]; subst.
        apply IH in Hys. done.
    + split; [done|]. inversion 1 as [|? y' ? ys'' Hy Hys]; congruence.
Qed.

(** The exception of the loop is that of the first element that raises; the
    elements before it went through. *)
Lemma rmap_err {A B} (f : A -> result B) xs e :
  rmap f xs = Err e <->
  exists before x after,
    xs = before ++ x :: after
    /\ Forall (fun x' => is_ok (f x') = true) before
    /\ f x = Err e.
Proof.
  induction xs as [|x xs IH]; cbn [rmap].
  - split; [done|]. intros (before & ? & ? & Heq & _). by destruct before.
  - destruct (f x) as [y|e'] eqn:Hfx.
    + destruct (rmap f xs) as [ys'|e'] eqn:Hrest.
      * split; [done|]. intros ([|b before] & x' & after & Heq & Hbefore & Hx).
        -- injection Heq as -> ->. congruence.
        -- injection Heq as -> ->. apply Forall_cons in Hbefore as [_ Hbefore].
           assert (Ok ys' = Err e) as Habs; [|done].
           apply IH. by exists before, x', after.
      * split.
        -- intros [= ->]. destruct (proj1 IH eq_refl)
             as (before & x' & after & -> & Hbefore & Hx).
           exists (x :: before), x', after. split; [done|].
           split; [|done]. constructor; [by rewrite Hfx | done].
        -- intros ([|b before] & x' & after & Heq & Hbefore & Hx).
           ++ injection Heq as -> ->. congruence.
           ++ injection Heq as -> ->.
              apply Forall_cons in Hbefore as [_ Hbefore].
              apply IH. by exists before, x', after.
    + split.
      * intros [= ->]. exists [], x, xs. by repeat split.
      * intros ([|b before] & x' & after & Heq & Hbefore & Hx).
        -- injection Heq as -> ->. congruence.
        -- injection Heq as -> ->. apply Forall_cons in Hbefore as [Hb _].
           by rewrite Hfx in Hb.
Qed.

Lemma rmap_getitem_ok {V} (embeddings : gmap Z V) ids xs :
  rmap (fun id_ => getitem embeddings id_) ids = Ok xs <->
  Forall2 (fun id_ x => embeddings !! id_ = Some x) ids xs.
Proof.
  rewrite rmap_ok.
  split; intros Hall; (eapply Forall2_impl; [exact Hall|]);
    intros id_ x; unfold getitem; destruct (embeddings !! id_); congruence.
Qed.

Lemma rmap_getitem_err {V} (embeddings : gmap Z V) ids e :
  rmap (fun id_ => getitem embeddings id_) ids = Err e ->
  exists k, e = KeyError k /\ k ∈ ids /\ embeddings !! k = None.
Proof.
  intros (before & k & after & -> & _ & Hk)%rmap_err.
  unfold getitem in Hk. destruct (embeddings !! k) eqn:Hlook; [done|].
  injection Hk as <-. exists k. split; [done|]. split; [|done].
  set_solver.
Qed.

Lemma rmap_getitem_total {V} (embeddings : gmap Z V) ids :
  (forall k, k ∈ ids -> is_Some (embeddings !! k)) ->
  exists xs, rmap (fun id_ => getitem embeddings id_) ids = Ok xs.
Proof.
  intros Hall.
  destruct (rmap (fun id_ => getitem embeddings id_) ids) as [xs|e] eqn:Hr;
    [eauto|].
  apply rmap_getitem_err in Hr as (k & _ & Hin & Hnone).
  destruct (Hall k Hin) as [x Hx]. congruence.
Qed.

Lemma rmap_getitem_missing {V} (embeddings : gmap Z V) ids k :
  k ∈ ids -> embeddings !! k = None ->
  exists k', rmap (fun id_ => getitem embeddings id_) ids = Err (KeyError k')
             /\ k' ∈ ids /\ embeddings !! k' = None.
Proof.
  intros Hin Hnone.
  destruct (rmap (fun id_ => getitem embeddings id_) ids) as [xs|e] eqn:Hr.
  - apply rmap_getitem_ok in Hr.
    apply list_elem_of_lookup in Hin as [i Hi].
    destruct (Forall2_lookup_l _ _ _ _ _ Hr Hi) as (x & _ & Hx). congruence.
  - apply rmap_getitem_err in Hr as (k' & -> & ? & ?). eauto.
Qed.

Lemma rmap_app {A B} (f : A -> result B) (xs1 xs2 : list A) :
  rmap f (xs1 ++ xs2)
  = (ys1 <- rmap f xs1 ;; ys2 <- rmap f xs2 ;; Ok (ys1 ++ ys2))%result.
Proof.
  induction xs1 as [|x xs1 IH]; cbn [app rmap rbind].
  - by destruct (rmap f xs2).
  - destruct (f x) as [y|e]; [|done]. rewrite IH.
    destruct (rmap f xs1) as [ys1|e]; cbn [rbind]; [|done].
    by destruct (rmap f xs2).
Qed.

Lemma rmap_first_error {A B} (f : A -> result B) before x after e :
  Forall (fun x' => is_ok (f x') = true) before ->
  f x = Err e ->
  rmap f (before ++ x :: after) = Err e.
Proof. intros Hbefore Hx. apply rmap_err. by exists before, x, after. Qed.

(** ** Assembling a classification dataset *)

Section Assembly.

Context {vec label : Type}.
Context {NN : NearestNeighbors vec} {MT : Metrics label} {EV : Env vec label}.

Lemma get_X_y_for_classification_run
    (embeddings : gmap Z vec) train_path test_path train test :
  pd_read_csv train_path = Ok train ->
  pd_read_csv test_path = Ok test ->
  get_X_y_for_classification embeddings train_path test_path
  = ([ReadFile train_path; ReadFile test_path],
     (X_train <- rmap (fun id_ => getitem embeddings id_) (map fst train) ;;
      X_test <- rmap (fun id_ => getitem embeddings id_) (map fst test) ;;
      Ok (X_train, X_test, map snd train, map snd test))%result).
Proof.
  intros Htrain Htest.
  unfold get_X_y_for_classification, read_csv, emit, lift, bind, ret.
  rewrite Htrain, Htest. cbn.
  destruct (rmap _ (map fst train)) as [X_train|e]; cbn; [|done].
  by destruct (rmap _ (map fst test)) as [X_test|e]; cbn.
Qed.

(** C7.  Once both label files are read, the assembler either returns arrays
    with one row per example of the corresponding file, in file order (row
    [i] of the features is the embedding of the [i]-th id, the labels are the
    label column), or it raises [KeyError] for an id of one of the files that
    has no embedding.  It returns whenever every id has an embedding. *)
Theorem assembly_keeps_rows
    (embeddings : gmap Z vec) train_path test_path train test :
  pd_read_csv train_path = Ok train ->
  pd_read_csv test_path = Ok test ->
  match outcome (get_X_y_for_classification embeddings train_path test_path)
  with
  | Ok (X_train, X_test, y_train, y_test) =>
      length X_train = length train /\ length y_train = length train
      /\ length X_test = length test /\ length y_test = length test
      /\ (forall i row, train !! i = Some row ->
            embeddings !! row.1 = X_train !! i /\ y_train !! i = Some row.2)
      /\ (forall i row, test !! i = Some row ->
            embeddings !! row.1 = X_test !! i /\ y_test !! i = Some row.2)
  | Err e =>
      exists k, e = KeyError k /\ k ∈ map fst (train ++ test)
                /\ embeddings !! k = None
  end
  /\ ((forall row, row ∈ train ++ test -> is_Some (embeddings !! row.1)) ->
      is_ok (outcome (get_X_y_for_classification
                        embeddings train_path test_path)) = true).
Proof.
  intros Htrain Htest.
  rewrite (get_X_y_for_classification_run _ _ _ _ _ Htrain Htest).
  cbn [outcome snd]. split.
  - destruct (rmap _ (map fst train)) as [X_train|e] eqn:Htr; cbn [rbind].
    + destruct (rmap _ (map fst test)) as [X_test|e] eqn:Hte; cbn [rbind].
      * apply rmap_getitem_ok in Htr, Hte.
        pose proof (Forall2_length _ _ _ Htr) as Hlen1.
        pose proof (Forall2_length _ _ _ Hte) as Hlen2.
        rewrite length_map in Hlen1, Hlen2. rewrite !length_map.
        split_and!; try done.
        -- intros i row Hrow.
           assert (Hi : map fst train !! i = Some row.1)
             by (by rewrite list_lookup_fmap, Hrow).
           destruct (Forall2_lookup_l _ _ _ _ _ Htr Hi) as (x & -> & ->).
           by rewrite list_lookup_fmap, Hrow.
        -- intros i row Hrow.
           assert (Hi : map fst test !! i = Some row.1)
             by (by rewrite list_lookup_fmap, Hrow).
           destruct (Forall2_lookup_l _ _ _ _ _ Hte Hi) as (x & -> & ->).
           by rewrite list_lookup_fmap, Hrow.
      * apply rmap_getitem_err in Hte as (k & -> & Hin & Hnone).
        exists k. split; [done|]. split; [|done].
        rewrite map_app. apply elem_of_app. by right.
    + apply rmap_getitem_err in Htr as (k & -> & Hin & Hnone).
      exists k. split; [done|]. split; [|done].
      rewrite map_app. apply elem_of_app. by left.
  - intros Hall.
    destruct (rmap_getitem_total embeddings (map fst train)) as [X_train ->].
    { intros k (row & -> & Hrow)%list_elem_of_fmap. apply Hall. set_solver. }
    destruct (rmap_getitem_total embeddings (map fst test)) as [X_test ->].
    { intros k (row & -> & Hrow)%list_elem_of_fmap. apply Hall. set_solver. }
    done.
Qed.

End Assembly.

(** ** Classification *)

Section Classification.

Context {vec label : Type}.
Context {NN : NearestNeighbors vec} {MT : Metrics label} {EV : Env vec label}.

Lemma classify_trace X_train y_train X_test y_test
    grid_search_cv n_jobs max_iter get_cls_report silent :
  trace (classify X_train y_train X_test y_test
                  grid_search_cv n_jobs max_iter get_cls_report silent)
  = [Fit (svm_of grid_search_cv max_iter n_jobs silent) X_train y_train].
Proof.
  unfold classify, fit, emit, lift, bind, ret, trace.
  fold (linear_svc max_iter).
  fold (grid_search max_iter n_jobs silent C_grid).
  fold (svm_of grid_search_cv max_iter n_jobs silent).
  destruct (svm_fit _ X_train y_train) as [model|e]; cbn; [|done].
  destruct (svm_predict model X_test) as [y_pred|e]; cbn; [|done].
  destruct (f1_score y_test y_pred Macro) as [m|e]; cbn; [|done].
  destruct (f1_score y_test y_pred Weighted) as [w|e]; cbn; [|done].
  destruct get_cls_report; [|done].
  by destruct (classification_report y_test y_pred).
Qed.

Lemma classify_outcome X_train y_train X_test y_test
    grid_search_cv n_jobs max_iter get_cls_report silent :
  outcome (classify X_train y_train X_test y_test
                    grid_search_cv n_jobs max_iter get_cls_report silent)
  = (model <- svm_fit (svm_of grid_search_cv max_iter n_jobs silent)
                      X_train y_train ;;
     y_pred <- svm_predict model X_test ;;
     macro_f1 <- f1_score y_test y_pred Macro ;;
     weighted_f1 <- f1_score y_test y_pred Weighted ;;
     if get_cls_report then
       cls_report <- classification_report y_test y_pred ;;
       Ok [("macro_f1", Float macro_f1); ("weighted_f1", Float weighted_f1);
           ("cls_report", Text cls_report)]
     else
       Ok [("macro_f1", Float macro_f1); ("weighted_f1", Float weighted_f1)]
    )%result.
Proof.
  unfold classify, fit, emit, lift, bind, ret, outcome.
  fold (linear_svc max_iter).
  fold (grid_search max_iter n_jobs silent C_grid).
  fold (svm_of grid_search_cv max_iter n_jobs silent).
  destruct (svm_fit _ X_train y_train) as [model|e]; cbn; [|done].
  destruct (svm_predict model X_test) as [y_pred|e]; cbn; [|done].
  destruct (f1_score y_test y_pred Macro) as [m|e]; cbn; [|done].
  destruct (f1_score y_test y_pred Weighted) as [w|e]; cbn; [|done].
  destruct get_cls_report; [|done].
  by destruct (classification_report y_test y_pred).
Qed.

(** C8.  A result returned by [classify] has the keys [macro_f1] and
    [weighted_f1], in that order, followed by [cls_report] exactly when the
    report was asked for, and no other key.  The two scores are those of
    [f1_score] on the test labels and the predictions of the fitted model, and
    lie between 0 and 1. *)
Theorem classify_result X_train y_train X_test y_test
    grid_search_cv n_jobs max_iter get_cls_report silent r :
  outcome (classify X_train y_train X_test y_test
                    grid_search_cv n_jobs max_iter get_cls_report silent)
    = Ok r ->
  dict_keys r = ["macro_f1"; "weighted_f1"]
                ++ (if get_cls_report then ["cls_report"] else [])
  /\ (is_Some (dict_get r "cls_report") <-> get_cls_report = true)
  /\ exists model y_pred macro_f1 weighted_f1,
       svm_fit (svm_of grid_search_cv max_iter n_jobs silent) X_train y_train
         = Ok model
       /\ svm_predict model X_test = Ok y_pred
       /\ f1_score y_test y_pred Macro = Ok macro_f1
       /\ f1_score y_test y_pred Weighted = Ok weighted_f1
       /\ dict_get r "macro_f1" = Some (Float macro_f1)
       /\ dict_get r "weighted_f1" = Some (Float weighted_f1)
       /\ (0 <= macro_f1 /\ macro_f1 <= 1)%Q
       /\ (0 <= weighted_f1 /\ weighted_f1 <= 1)%Q.
Proof.
  rewrite classify_outcome.
  destruct (svm_fit _ X_train y_train) as [model|e] eqn:Hfit;
    cbn [rbind]; [|done].
  destruct (svm_predict model X_test) as [y_pred|e] eqn:Hpred;
    cbn [rbind]; [|done].
  destruct (f1_score y_test y_pred Macro) as [m|e] eqn:Hm;
    cbn [rbind]; [|done].
  destruct (f1_score y_test y_pred Weighted) as [w|e] eqn:Hw;
    cbn [rbind]; [|done].
  destruct (f1_score_range _ _ _ _ Hm) as [Hm0 Hm1].
  destruct (f1_score_range _ _ _ _ Hw) as [Hw0 Hw1].
  destruct get_cls_report.
  - destruct (classification_report y_test y_pred) as [rep|e];
      cbn [rbind]; [|done].
    intros [= <-]. split; [done|].
    split; [split; [done | intros _; eexists; reflexivity]|].
    exists model, y_pred, m, w. by split_and!.
  - intros [= <-]. split; [done|]. split.
    { split; [intros [? Hget]; discriminate Hget | done]. }
    exists model, y_pred, m, w. by split_and!.
Qed.

(** C9.  [classify] hands exactly one model to [fit].  With cross-validation
    it is a [GridSearchCV] over the [LinearSVC] estimator with [cv = 3], no
    [scoring] argument, and the grid [C] in [1e-4, 1e-3, ..., 1e2]: seven
    values, each ten times the previous one.  Without it the model is the
    [LinearSVC] estimator itself, built without a [C] argument. *)
Theorem classify_model_selection X_train y_train X_test y_test
    grid_search_cv n_jobs max_iter get_cls_report silent :
  exists svm,
    trace (classify X_train y_train X_test y_test
                    grid_search_cv n_jobs max_iter get_cls_report silent)
      = [Fit svm X_train y_train]
    /\ if grid_search_cv then
         exists grid,
           svm = grid_search max_iter n_jobs silent grid
           /\ grid = [1 # 10000; 1 # 1000; 1 # 100; 1 # 10; 1; 10; 100]%Q
           /\ length grid = 7
           /\ (forall i x y, grid !! i = Some x -> grid !! S i = Some y ->
                 (y == 10 * x)%Q)
           /\ dict_get (kwargs_of svm) "cv" = Some (PInt 3)
           /\ dict_get (kwargs_of svm) "scoring" = None
           /\ dict_get (kwargs_of svm) "estimator" = Some (linear_svc max_iter)
           /\ dict_get (kwargs_of (linear_svc max_iter)) "C" = None
       else
         svm = linear_svc max_iter
         /\ dict_get (kwargs_of svm) "C" = None.
Proof.
  exists (svm_of grid_search_cv max_iter n_jobs silent).
  split; [apply classify_trace|].
  destruct grid_search_cv; [|done].
  exists C_grid. split; [done|]. split; [reflexivity|].
  split; [reflexivity|]. split; [|done].
  change C_grid with [1 # 10000; 1 # 1000; 1 # 100; 1 # 10; 1; 10; 100]%Q.
  intros i x y Hx Hy.
  do 6 (destruct i as [|i]; [injection Hx as <-; injection Hy as <-;
                             reflexivity|]).
  destruct i; discriminate Hy.
Qed.

End Classification.

(** ** Reference scores: the law of the interface *)

Section ReferenceF1.

Context {label : Type} `{EqDecision label}.

Lemma quotient_range (a b : Q) :
  (0 <= a -> a <= b -> 0 <= a / b /\ a / b <= 1)%Q.
Proof.
  intros Ha Hab. destruct (Qlt_le_dec 0 b) as [Hb|Hb].
  - split.
    + apply Qle_shift_div_l; [done|]. lra.
    + apply Qle_shift_div_r; [done|]. lra.
  - assert (Hb0 : (b == 0)%Q) by lra.
    assert (Hq : (a / b == 0)%Q).
    { unfold Qdiv. rewrite Hb0. unfold Qinv. simpl. lra. }
    rewrite Hq. lra.
Qed.

Lemma qnat_nonneg (n : nat) : (0 <= Reference.qnat n)%Q.
Proof.
  unfold Reference.qnat. change 0%Q with (inject_Z 0).
  rewrite <- Zle_Qle. lia.
Qed.

Lemma qnat_le (m n : nat) : m <= n -> (Reference.qnat m <= Reference.qnat n)%Q.
Proof. intros Hmn. unfold Reference.qnat. rewrite <- Zle_Qle. lia. Qed.

Lemma f1_of_range (l : label) y_true y_pred :
  (0 <= Reference.f1_of l y_true y_pred
   /\ Reference.f1_of l y_true y_pred <= 1)%Q.
Proof.
  unfold Reference.f1_of. apply quotient_range.
  - apply qnat_nonneg.
  - apply qnat_le. lia.
Qed.

Lemma weighted_sum_range {A} (s f : A -> Q) (ls : list A) :
  (forall l, 0 <= s l)%Q ->
  (forall l, 0 <= f l /\ f l <= 1)%Q ->
  (0 <= Reference.qsum (map (fun l => s l * f l) ls)
   /\ Reference.qsum (map (fun l => s l * f l) ls)
      <= Reference.qsum (map s ls))%Q.
Proof.
  intros Hs Hf. unfold Reference.qsum.
  induction ls as [|l ls [IH0 IH1]]; cbn [map fold_right]; [lra|].
  pose proof (Hs l). destruct (Hf l). split; nra.
Qed.

Lemma unit_sum_range {A} (f : A -> Q) (ls : list A) :
  (forall l, 0 <= f l /\ f l <= 1)%Q ->
  (0 <= Reference.qsum (map f ls)
   /\ Reference.qsum (map f ls) <= Reference.qnat (length ls))%Q.
Proof.
  intros Hf. unfold Reference.qsum, Reference.qnat.
  induction ls as [|l ls [IH0 IH1]]; cbn [map fold_right length].
  - split; apply Qle_refl.
  - rewrite Nat2Z.inj_succ, <- Z.add_1_l, inject_Z_plus.
    destruct (Hf l). change (inject_Z 1) with 1%Q. split; lra.
Qed.

Lemma f1_reference_range (y_true y_pred : list label) avg v :
  Reference.f1_reference y_true y_pred avg = Ok v -> (0 <= v /\ v <= 1)%Q.
Proof.
  unfold Reference.f1_reference.
  destruct (negb _); [done|]. destruct avg; intros [= <-].
  - apply quotient_range;
      apply (unit_sum_range (fun l => Reference.f1_of l y_true y_pred));
      intros l; apply f1_of_range.
  - apply quotient_range;
      apply (weighted_sum_range
               (fun l => Reference.qnat (Reference.support l y_true y_pred))
               (fun l => Reference.f1_of l y_true y_pred));
      first [intros l; apply qnat_nonneg | intros l; apply f1_of_range].
Qed.

End ReferenceF1.

Definition reference_metrics : Metrics string := {|
  f1_score := Reference.f1_reference;
  f1_score_range := f1_reference_range;
  classification_report := Reference.report_reference
|}.

(** ** Reasoning about runs *)

Section RunLogic.

Context {vec label : Type}.

Local Abbreviation run := (M (event vec label)).

Lemma returns_bind {A B} (Q : A -> Prop) (P : B -> Prop)
    (m : run A) (f : A -> run B) :
  returns Q m -> (forall a, Q a -> returns P (f a)) -> returns P (bind m f).
Proof.
  intros Hm Hf b. rewrite outcome_bind.
  destruct (outcome m) as [a|e] eqn:Hout; [|done].
  apply Hf. by apply Hm.
Qed.

Lemma returns_ret {A} (P : A -> Prop) (a : A) : P a -> returns P (ret a : run A).
Proof. by intros HP a' [= <-]. Qed.

Lemma returns_any {A} (m : run A) : returns (fun _ => True) m.
Proof. done. Qed.

Lemma quiet_bind {A B} (m : run A) (f : A -> run B) :
  quiet m -> (forall a, quiet (f a)) -> quiet (bind m f).
Proof.
  unfold quiet, console. intros Hm Hf. rewrite trace_bind, omap_app, Hm.
  destruct (outcome m); [apply Hf | done].
Qed.

Lemma quiet_ret {A} (a : A) : quiet (ret a : run A).
Proof. done. Qed.

Lemma quiet_lift {A} (r : result A) : quiet (lift r : run A).
Proof. done. Qed.

Lemma quiet_read (path : string) : quiet (emit (ReadFile path) : run unit).
Proof. done. Qed.

Lemma reads_bind {A B} files1 files2 (m : run A) (f : A -> run B) :
  reads files1 m -> (forall a, reads files2 (f a)) ->
  reads (files1 ++ files2) (bind m f).
Proof.
  unfold reads, files_read. intros [Hpre Hall] Hf.
  rewrite trace_bind, outcome_bind, omap_app.
  destruct (outcome m) as [a|e].
  - destruct (Hf a) as [Hpre' Hall']. rewrite Hall by done. split.
    + by apply prefix_app.
    + intros Hok. by rewrite Hall'.
  - split; [|done]. rewrite app_nil_r. by apply prefix_app_r.
Qed.

Lemma reads_ret {A} (a : A) : reads [] (ret a : run A).
Proof. by split. Qed.

Lemma reads_lift {A} (r : result A) : reads [] (lift r : run A).
Proof. by split. Qed.

Lemma reads_read (path : string) : reads [path] (emit (ReadFile path) : run unit).
Proof. by split. Qed.

Lemma reads_eq {A} files files' (m : run A) :
  reads files' m -> files' = files -> reads files m.
Proof. by intros ? <-. Qed.

End RunLogic.

(** ** The blocks of the entry point *)

Section Blocks.

Context {vec label : Type}.
Context {NN : NearestNeighbors vec} {MT : Metrics label} {EV : Env vec label}.

Local Abbreviation run := (M (event vec label)).

Lemma quiet_print_unless line :
  quiet (print_unless (vec := vec) (label := label) true line).
Proof. done. Qed.

Lemma quiet_print_metrics name results : quiet (print_metrics name results true).
Proof. done. Qed.

Lemma quiet_classify X_train y_train X_test y_test
    grid_search_cv n_jobs max_iter get_cls_report silent :
  quiet (classify X_train y_train X_test y_test
                  grid_search_cv n_jobs max_iter get_cls_report silent).
Proof. unfold quiet. by rewrite classify_trace. Qed.

Lemma quiet_get_X_y (embeddings : gmap Z vec) train_path test_path :
  quiet (get_X_y_for_classification embeddings train_path test_path).
Proof.
  unfold get_X_y_for_classification, read_csv.
  repeat first [ apply quiet_bind; [|intros ?] | apply quiet_read
               | apply quiet_lift | apply quiet_ret ].
Qed.

Lemma quiet_get_embeddings (embeddings : gmap Z vec) path :
  quiet (get_embeddings_for_translation_search embeddings path).
Proof.
  unfold get_embeddings_for_translation_search, read_json.
  repeat first [ apply quiet_bind; [|intros ?] | apply quiet_read
               | apply quiet_lift | apply quiet_ret ].
Qed.

Lemma quiet_classification_block (embeddings : gmap Z vec) results
    key announcement train_path test_path announce_training
    get_cls_report grid_search_cv n_jobs max_iter :
  quiet (classification_block embeddings results key announcement
           train_path test_path announce_training
           get_cls_report grid_search_cv n_jobs max_iter true).
Proof.
  unfold classification_block.
  apply quiet_bind; [apply quiet_print_unless|intros _].
  apply quiet_bind; [apply quiet_get_X_y|intros [[[X_train X_test] y_train] y_test]].
  apply quiet_bind; [by destruct announce_training|intros _].
  apply quiet_bind; [apply quiet_classify|intros r].
  apply quiet_bind; [apply quiet_print_metrics|intros _]. apply quiet_ret.
Qed.

Lemma quiet_translation_block (embeddings : gmap Z vec) results n_jobs :
  quiet (translation_block embeddings results n_jobs true).
Proof.
  unfold translation_block.
  apply quiet_bind; [apply quiet_print_unless|intros _].
  apply quiet_bind; [apply quiet_get_embeddings|intros [ru_embs en_embs]].
  repeat first [ apply quiet_bind; [|intros ?] | apply quiet_print_metrics
               | apply quiet_lift | apply quiet_ret ].
Qed.

(** With [silent] set, no selection of tasks writes to the console. *)
Lemma quiet_get_ru_sci_bench_metrics embeddings_path metrics
    get_cls_report grid_search_cv n_jobs max_iter :
  quiet (get_ru_sci_bench_metrics embeddings_path metrics
           get_cls_report grid_search_cv n_jobs max_iter true).
Proof.
  unfold get_ru_sci_bench_metrics, load_embeddings_from_jsonl.
  apply quiet_bind; [apply quiet_print_unless|intros _].
  apply quiet_bind.
  { apply quiet_bind; [apply quiet_read|intros _; apply quiet_lift]. }
  intros embeddings.
  apply quiet_bind.
  { destruct (selected metrics "translation_search");
      [apply quiet_translation_block | apply quiet_ret]. }
  intros results1. apply quiet_bind.
  { destruct (selected metrics "full_classification"); [|apply quiet_ret].
    apply quiet_bind; intros; apply quiet_classification_block. }
  intros results2. apply quiet_bind.
  { destruct (selected metrics "ru_classification"); [|apply quiet_ret].
    apply quiet_bind; intros; apply quiet_classification_block. }
  intros results3. apply quiet_bind.
  { destruct (selected metrics "en_classification"); [|apply quiet_ret].
    apply quiet_bind; intros; apply quiet_classification_block. }
  intros results4. apply quiet_ret.
Qed.

(** What a block adds to the report when it returns. *)
Lemma returns_classification_block (embeddings : gmap Z vec) results
    key announcement train_path test_path announce_training
    get_cls_report grid_search_cv n_jobs max_iter silent :
  returns (fun results' => exists r, results' = dict_set results key r)
    (classification_block embeddings results key announcement
       train_path test_path announce_training
       get_cls_report grid_search_cv n_jobs max_iter silent).
Proof.
  unfold classification_block.
  eapply returns_bind; [apply returns_any|intros _ _].
  eapply returns_bind; [apply returns_any|].
  intros [[[X_train X_test] y_train] y_test] _.
  eapply returns_bind; [apply returns_any|intros _ _].
  eapply returns_bind; [apply returns_any|intros r _].
  eapply returns_bind; [apply returns_any|intros _ _].
  apply returns_ret. by exists r.
Qed.

Lemma returns_translation_block (embeddings : gmap Z vec) results
    n_jobs silent :
  returns (fun results' => exists r1 r2,
             results' = dict_set (dict_set results
                                    "ru_en_translation_search" r1)
                                 "en_ru_translation_search" r2)
    (translation_block embeddings results n_jobs silent).
Proof.
  unfold translation_block.
  eapply returns_bind; [apply returns_any|intros _ _].
  eapply returns_bind; [apply returns_any|intros [ru_embs en_embs] _].
  eapply returns_bind; [apply returns_any|intros r1 _].
  eapply returns_bind; [apply returns_any|intros _ _].
  eapply returns_bind; [apply returns_any|intros r2 _].
  eapply returns_bind; [apply returns_any|intros _ _].
  apply returns_ret. by exists r1, r2.
Qed.

End Blocks.

(** ** Keys of the report *)

Lemma dict_keys_set_fresh {V} (d : dict V) (k : string) (v : V) :
  k ∉ dict_keys d -> dict_keys (dict_set d k v) = dict_keys d ++ [k].
Proof.
  induction d as [|[k' v'] d IH]; intros Hfresh; [done|].
  cbn [dict_set]. destruct (String.eqb_spec k' k) as [->|Hne].
  - exfalso. apply Hfresh. left.
  - cbn [dict_keys map fst app]. f_equal. apply IH.
    intros Hin. apply Hfresh. by right.
Qed.

Lemma returns_weaken {vec label A} (P Q : A -> Prop)
    (m : M (event vec label) A) :
  returns P m -> (forall a, P a -> Q a) -> returns Q m.
Proof. intros Hm HPQ a Hout. by apply HPQ, Hm. Qed.

Ltac fresh_key :=
  cbv [keys_if retrieval_keys full_keys ru_keys en_keys];
  rewrite ?elem_of_app, ?elem_of_cons, ?elem_of_nil;
  intuition discriminate.

Section Keys.

Context {vec label : Type}.
Context {NN : NearestNeighbors vec} {MT : Metrics label} {EV : Env vec label}.

Lemma keys_translation_block (embeddings : gmap Z vec) results n_jobs silent
    (keys : list string) :
  dict_keys results = keys ->
  "ru_en_translation_search" ∉ keys ->
  "en_ru_translation_search" ∉ keys ->
  returns (fun results' => dict_keys results' = keys ++ retrieval_keys)
    (translation_block embeddings results n_jobs silent).
Proof.
  intros Hkeys Hfresh1 Hfresh2.
  eapply returns_weaken; [apply returns_translation_block|].
  intros results' (r1 & r2 & ->).
  rewrite !dict_keys_set_fresh, Hkeys, <- app_assoc; [done|by rewrite Hkeys|].
  rewrite dict_keys_set_fresh, Hkeys by (by rewrite Hkeys).
  rewrite elem_of_app, list_elem_of_singleton. intros [?|?]; done.
Qed.

(** A family of two classification tasks, one after the other. *)
Lemma keys_classification_pair (embeddings : gmap Z vec) results
    key1 announcement1 train1 test1 key2 announcement2 train2 test2
    announce_training get_cls_report grid_search_cv n_jobs max_iter silent
    (keys : list string) :
  dict_keys results = keys ->
  key1 ∉ keys -> key2 ∉ keys -> key1 <> key2 ->
  returns (fun results' => dict_keys results' = keys ++ [key1; key2])
    (bind (classification_block embeddings results key1 announcement1
             train1 test1 announce_training
             get_cls_report grid_search_cv n_jobs max_iter silent)
          (fun results =>
             classification_block embeddings results key2 announcement2
               train2 test2 announce_training
               get_cls_report grid_search_cv n_jobs max_iter silent)).
Proof.
  intros Hkeys Hfresh1 Hfresh2 Hne.
  eapply returns_bind; [apply returns_classification_block|].
  intros results1 [r1 ->].
  eapply returns_weaken; [apply returns_classification_block|].
  intros results2 [r2 ->].
  rewrite !dict_keys_set_fresh, Hkeys, <- app_assoc; [done|by rewrite Hkeys|].
  rewrite dict_keys_set_fresh, Hkeys by (by rewrite Hkeys).
  rewrite elem_of_app, list_elem_of_singleton. intros [?|?]; congruence.
Qed.

(** The report returned by the entry point holds the keys of the selected
    families, in catalog order. *)
Lemma returns_expected_keys embeddings_path metrics
    get_cls_report grid_search_cv n_jobs max_iter silent :
  returns (fun report => dict_keys report = expected_keys metrics)
    (get_ru_sci_bench_metrics embeddings_path metrics
       get_cls_report grid_search_cv n_jobs max_iter silent).
Proof.
  unfold get_ru_sci_bench_metrics, expected_keys.
  set (b1 := selected metrics "translation_search").
  set (b2 := selected metrics "full_classification").
  set (b3 := selected metrics "ru_classification").
  set (b4 := selected metrics "en_classification").
  eapply returns_bind; [apply returns_any|intros _ _].
  eapply returns_bind; [apply returns_any|intros embeddings _].
  eapply (returns_bind (fun r => dict_keys r = keys_if b1 retrieval_keys)).
  { destruct b1; [|by apply returns_ret].
    apply (keys_translation_block _ _ _ _ []);
      [done | by intros ?%elem_of_nil..]. }
  intros results1 Hk1.
  eapply (returns_bind (fun r => dict_keys r = keys_if b1 retrieval_keys
                                               ++ keys_if b2 full_keys)).
  { destruct b2; [|apply returns_ret; by rewrite app_nil_r].
    apply keys_classification_pair; [done|..|done]; destruct b1; fresh_key. }
  intros results2 Hk2.
  eapply (returns_bind (fun r => dict_keys r = (keys_if b1 retrieval_keys
                                                ++ keys_if b2 full_keys)
                                               ++ keys_if b3 ru_keys)).
  { destruct b3; [|apply returns_ret; by rewrite app_nil_r].
    apply keys_classification_pair; [done|..|done];
      destruct b1, b2; fresh_key. }
  intros results3 Hk3.
  eapply (returns_bind (fun r => dict_keys r = ((keys_if b1 retrieval_keys
                                                 ++ keys_if b2 full_keys)
                                                ++ keys_if b3 ru_keys)
                                               ++ keys_if b4 en_keys)).
  { destruct b4; [|apply returns_ret; by rewrite app_nil_r].
    apply keys_classification_pair; [done|..|done];
      destruct b1, b2, b3; fresh_key. }
  intros results4 Hk4. apply returns_ret.
  by rewrite Hk4, <- !app_assoc.
Qed.

End Keys.

(** ** Files opened by a run *)

Section Files.

Context {vec label : Type}.
Context {NN : NearestNeighbors vec} {MT : Metrics label} {EV : Env vec label}.

Lemma files_read_stdout (lines : list string) :
  files_read (vec := vec) (label := label) (map Stdout lines) = [].
Proof. induction lines as [|line lines IH]; [done|apply IH]. Qed.

Lemma reads_print_unless silent line :
  reads [] (print_unless (vec := vec) (label := label) silent line).
Proof. by destruct silent. Qed.

Lemma reads_print_metrics name results silent :
  reads [] (print_metrics name results silent).
Proof.
  destruct silent; [done|].
  unfold reads, print_metrics, trace, fst. by rewrite files_read_stdout.
Qed.

Lemma reads_classify X_train y_train X_test y_test
    grid_search_cv n_jobs max_iter get_cls_report silent :
  reads [] (classify X_train y_train X_test y_test
                     grid_search_cv n_jobs max_iter get_cls_report silent).
Proof. unfold reads. by rewrite classify_trace. Qed.

Ltac reads_steps :=
  repeat first
    [ apply reads_read | apply reads_lift | apply reads_ret
    | apply reads_print_unless | apply reads_print_metrics
    | apply reads_classify
    | eapply reads_bind; [|intros ?] ].

Lemma reads_get_X_y (embeddings : gmap Z vec) train_path test_path :
  reads [train_path; test_path]
    (get_X_y_for_classification embeddings train_path test_path).
Proof.
  unfold get_X_y_for_classification, read_csv.
  eapply reads_eq; [reads_steps|done].
Qed.

Lemma reads_get_embeddings (embeddings : gmap Z vec) path :
  reads [path] (get_embeddings_for_translation_search embeddings path).
Proof.
  unfold get_embeddings_for_translation_search, read_json.
  eapply reads_eq; [reads_steps|done].
Qed.

Lemma reads_classification_block (embeddings : gmap Z vec) results
    key announcement train_path test_path announce_training
    get_cls_report grid_search_cv n_jobs max_iter silent :
  reads [train_path; test_path]
    (classification_block embeddings results key announcement
       train_path test_path announce_training
       get_cls_report grid_search_cv n_jobs max_iter silent).
Proof.
  unfold classification_block. eapply reads_eq.
  - eapply reads_bind; [apply reads_print_unless|intros _].
    eapply reads_bind; [apply reads_get_X_y|].
    intros [[[X_train X_test] y_train] y_test].
    eapply reads_bind.
    { instantiate (1 := []). destruct announce_training;
        [apply reads_print_unless | apply reads_ret]. }
    intros _. reads_steps.
  - done.
Qed.

Lemma reads_translation_block (embeddings : gmap Z vec) results n_jobs silent :
  reads [ru_en_translation_test data_paths]
    (translation_block embeddings results n_jobs silent).
Proof.
  unfold translation_block. eapply reads_eq.
  - eapply reads_bind; [apply reads_print_unless|intros _].
    eapply reads_bind; [apply reads_get_embeddings|].
    intros [ru_embs en_embs]. reads_steps.
  - done.
Qed.

Lemma reads_classification_pair (embeddings : gmap Z vec) results
    key1 announcement1 train1 test1 key2 announcement2 train2 test2
    announce_training get_cls_report grid_search_cv n_jobs max_iter silent :
  reads [train1; test1; train2; test2]
    (bind (classification_block embeddings results key1 announcement1
             train1 test1 announce_training
             get_cls_report grid_search_cv n_jobs max_iter silent)
          (fun results =>
             classification_block embeddings results key2 announcement2
               train2 test2 announce_training
               get_cls_report grid_search_cv n_jobs max_iter silent)).
Proof.
  apply (reads_bind [train1; test1] [train2; test2]);
    intros; apply reads_classification_block.
Qed.

Lemma reads_get_ru_sci_bench_metrics embeddings_path metrics
    get_cls_report grid_search_cv n_jobs max_iter silent :
  reads (expected_files embeddings_path metrics)
    (get_ru_sci_bench_metrics embeddings_path metrics
       get_cls_report grid_search_cv n_jobs max_iter silent).
Proof.
  unfold get_ru_sci_bench_metrics, expected_files, load_embeddings_from_jsonl.
  set (F1 := files_if (selected metrics "translation_search") _).
  set (F2 := files_if (selected metrics "full_classification") _).
  set (F3 := files_if (selected metrics "ru_classification") _).
  set (F4 := files_if (selected metrics "en_classification") _).
  apply (reads_bind [] ([embeddings_path] ++ F1 ++ F2 ++ F3 ++ F4));
    [apply reads_print_unless|intros _].
  apply (reads_bind [embeddings_path] (F1 ++ F2 ++ F3 ++ F4)).
  { apply (reads_bind [embeddings_path] []);
      [apply reads_read | intros _; apply reads_lift]. }
  intros embeddings. apply (reads_bind F1 (F2 ++ F3 ++ F4)).
  { subst F1. destruct (selected metrics "translation_search");
      [apply reads_translation_block | apply reads_ret]. }
  intros results1. apply (reads_bind F2 (F3 ++ F4)).
  { subst F2. destruct (selected metrics "full_classification");
      [apply reads_classification_pair | apply reads_ret]. }
  intros results2. apply (reads_bind F3 F4).
  { subst F3. destruct (selected metrics "ru_classification");
      [apply reads_classification_pair | apply reads_ret]. }
  intros results3.
  eapply reads_eq; [|apply app_nil_r]. apply (reads_bind F4 []).
  { subst F4. destruct (selected metrics "en_classification");
      [apply reads_classification_pair | apply reads_ret]. }
  intros results4. apply reads_ret.
Qed.

End Files.

(** ** Building the retrieval arrays, and assembly failures *)

Section Alignment.

Context {vec label : Type}.
Context {NN : NearestNeighbors vec} {MT : Metrics label} {EV : Env vec label}.

Lemma embedding_of_ok embeddings id_ x :
  embedding_of embeddings id_ = Ok x <->
  exists k, py_int id_ = Ok k /\ embeddings !! k = Some x.
Proof.
  unfold embedding_of, getitem. destruct (py_int id_) as [k|e]; cbn [rbind].
  - destruct (embeddings !! k) as [x'|] eqn:Hk.
    + split; [intros [= <-]; eauto | intros (k' & [= <-] & Hk'); congruence].
    + split; [done | intros (k' & [= <-] & Hk'); congruence].
  - split; [done | by intros (k' & ? & _)].
Qed.

Lemma get_embeddings_run (embeddings : gmap Z vec) path mapping :
  json_load path = Ok mapping ->
  get_embeddings_for_translation_search embeddings path
  = ([ReadFile path],
     (ru_embs <- rmap (fun id_ => embedding_of embeddings (JStr id_))
                      (map fst mapping) ;;
      en_embs <- rmap (embedding_of embeddings) (map snd mapping) ;;
      Ok (ru_embs, en_embs))%result).
Proof.
  intros Hload.
  unfold get_embeddings_for_translation_search, read_json, emit, lift, bind, ret.
  rewrite Hload. cbn. fold (embedding_of embeddings).
  change (fun id_ : string => (k <- py_int (JStr id_);; getitem embeddings k)%result)
    with (fun id_ : string => embedding_of embeddings (JStr id_)).
  destruct (rmap _ (map fst mapping)) as [ru_embs|e]; cbn; [|done].
  by destruct (rmap _ (map snd mapping)) as [en_embs|e]; cbn.
Qed.

(** C6.  Once the translation file is read, the builder either returns two
    arrays with one row per pair of the mapping, where row [i] of the first is
    the embedding of the Russian id of the [i]-th pair and row [i] of the
    second is the embedding of its English id, or it raises the exception met
    at the first id that [int] rejects or that has no embedding. *)
Theorem translation_arrays_aligned
    (embeddings : gmap Z vec) path mapping :
  json_load path = Ok mapping ->
  match outcome (get_embeddings_for_translation_search embeddings path) with
  | Ok (ru_embs, en_embs) =>
      length ru_embs = length mapping /\ length en_embs = length mapping
      /\ forall i ru_id en_id, mapping !! i = Some (ru_id, en_id) ->
           exists k_ru k_en,
             py_int (JStr ru_id) = Ok k_ru /\ py_int en_id = Ok k_en
             /\ is_Some (ru_embs !! i) /\ is_Some (en_embs !! i)
             /\ ru_embs !! i = embeddings !! k_ru
             /\ en_embs !! i = embeddings !! k_en
  | Err e =>
      exists id_, id_ ∈ map (fun p => JStr p.1) mapping ++ map snd mapping
                  /\ embedding_of embeddings id_ = Err e
  end.
Proof.
  intros Hload. rewrite (get_embeddings_run _ _ _ Hload). cbn [outcome snd].
  destruct (rmap _ (map fst mapping)) as [ru_embs|e] eqn:Hru; cbn [rbind].
  - destruct (rmap _ (map snd mapping)) as [en_embs|e] eqn:Hen; cbn [rbind].
    + apply rmap_ok in Hru, Hen.
      pose proof (Forall2_length _ _ _ Hru) as Hlen1.
      pose proof (Forall2_length _ _ _ Hen) as Hlen2.
      rewrite length_map in Hlen1, Hlen2. split_and!; try done.
      intros i ru_id en_id Hi.
      assert (Hi1 : map fst mapping !! i = Some ru_id)
        by (by rewrite list_lookup_fmap, Hi).
      assert (Hi2 : map snd mapping !! i = Some en_id)
        by (by rewrite list_lookup_fmap, Hi).
      destruct (Forall2_lookup_l _ _ _ _ _ Hru Hi1) as (x & Hx & Hfx).
      destruct (Forall2_lookup_l _ _ _ _ _ Hen Hi2) as (y & Hy & Hfy).
      apply embedding_of_ok in Hfx as (k_ru & Hk_ru & Hemb_ru).
      apply embedding_of_ok in Hfy as (k_en & Hk_en & Hemb_en).
      exists k_ru, k_en. rewrite Hx, Hy. split_and!; eauto; congruence.
    + apply rmap_err in Hen as (before & id_ & after & Heq & _ & Hid).
      exists id_. split; [|done]. apply elem_of_app. right.
      rewrite Heq. set_solver.
  - apply rmap_err in Hru as (before & id_ & after & Heq & _ & Hid).
    exists (JStr id_). split; [|done]. apply elem_of_app. left.
    apply list_elem_of_fmap. 
    assert (Hin : id_ ∈ map fst mapping) by (rewrite Heq; set_solver).
    apply list_elem_of_fmap in Hin as (p & -> & Hp). eauto.
Qed.

Lemma outcome_print_unless silent line :
  outcome (print_unless (vec := vec) (label := label) silent line) = Ok tt.
Proof. by destruct silent. Qed.

Lemma fits_print_unless silent line :
  models_fitted
    (trace (print_unless (vec := vec) (label := label) silent line)) = [].
Proof. by destruct silent. Qed.

Lemma models_fitted_app (t1 t2 : list (event vec label)) :
  models_fitted (t1 ++ t2) = models_fitted t1 ++ models_fitted t2.
Proof. apply omap_app. Qed.

(** C3, as the code has it.  When an id of the train or test file has no
    embedding, the assembler raises [KeyError] for the first id without
    embedding that it meets, the ids of the train file being looked up before
    those of the test file, each in file order; the block of the entry point
    that called it ends with the same exception and has handed no model to
    [fit]. *)
Theorem missing_embedding_raises_key_error
    (embeddings : gmap Z vec) results key announcement
    train_path test_path announce_training
    get_cls_report grid_search_cv n_jobs max_iter silent train test :
  pd_read_csv train_path = Ok train ->
  pd_read_csv test_path = Ok test ->
  (exists row, row ∈ train ++ test /\ embeddings !! row.1 = None) ->
  let block :=
    classification_block embeddings results key announcement
      train_path test_path announce_training
      get_cls_report grid_search_cv n_jobs max_iter silent in
  exists k before after,
    map fst train ++ map fst test = before ++ k :: after
    /\ (forall k', k' ∈ before -> is_Some (embeddings !! k'))
    /\ embeddings !! k = None
    /\ outcome (get_X_y_for_classification embeddings train_path test_path)
       = Err (KeyError k)
    /\ outcome block = Err (KeyError k)
    /\ exn_class (KeyError k) = "KeyError"
    /\ k ∈ map fst (train ++ test)
    /\ models_fitted (trace block) = [].
Proof.
  intros Htrain Htest (row & Hrow & Hnone) block.
  destruct (rmap_getitem_missing embeddings (map fst train ++ map fst test)
              row.1) as (k0 & Hall & _ & _).
  { rewrite <- map_app. by apply list_elem_of_fmap_2. }
  { done. }
  pose proof Hall as Hfirst.
  apply rmap_err in Hfirst as (before & k & after & Hids & Hbefore & Hk).
  unfold getitem in Hk. destruct (embeddings !! k) eqn:Hlook; [done|].
  injection Hk as <-.
  assert (Hout :
    outcome (get_X_y_for_classification embeddings train_path test_path)
    = Err (KeyError k)).
  { rewrite (get_X_y_for_classification_run _ _ _ _ _ Htrain Htest).
    cbn [outcome snd]. rewrite rmap_app in Hall.
    destruct (rmap _ (map fst train)) as [X_train|e]; cbn [rbind] in *.
    - destruct (rmap _ (map fst test)) as [X_test|e]; cbn [rbind] in *.
      + discriminate Hall.
      + by injection Hall as ->.
    - by injection Hall as ->. }
  exists k, before, after. split_and!; try done.
  - intros k' Hk'. rewrite Forall_forall in Hbefore.
    specialize (Hbefore k' Hk'). unfold getitem in Hbefore.
    by destruct (embeddings !! k').
  - subst block. unfold classification_block.
    by rewrite !outcome_bind, outcome_print_unless, Hout.
  - rewrite map_app, Hids. apply elem_of_app. right.
    apply elem_of_cons. by left.
  - subst block. unfold classification_block.
    rewrite !trace_bind, outcome_print_unless, Hout, !models_fitted_app.
    rewrite fits_print_unless.
    by rewrite (get_X_y_for_classification_run _ _ _ _ _ Htrain Htest).
Qed.

End Alignment.

(** ** Substring search *)







(** ** Runs that return *)

Section Returning.

Context {vec label : Type}.
Context {NN : NearestNeighbors vec} {MT : Metrics label} {EV : Env vec label}.

Local Abbreviation run := (M (event vec label)).

Lemma succeeds_bind {A B} (m : run A) (f : A -> run B) :
  succeeds m -> (forall a, outcome m = Ok a -> succeeds (f a)) ->
  succeeds (bind m f).
Proof.
  unfold succeeds. intros Hm Hf. rewrite outcome_bind.
  destruct (outcome m) as [a|e]; [by apply Hf | done].
Qed.

Lemma succeeds_ret {A} (a : A) : succeeds (ret a : run A).
Proof. done. Qed.

Lemma succeeds_print_unless silent line :
  succeeds (print_unless (vec := vec) (label := label) silent line).
Proof. by destruct silent. Qed.

Lemma succeeds_print_metrics name results silent :
  succeeds (print_metrics name results silent).
Proof. by destruct silent. Qed.

Lemma succeeds_translation_block (embeddings : gmap Z vec) results
    n_jobs silent :
  retrieval_returns embeddings n_jobs ->
  succeeds (translation_block embeddings results n_jobs silent).
Proof.
  intros (ru_embs & en_embs & Hembs & Hru_en & Hen_ru).
  unfold translation_block.
  apply succeeds_bind; [apply succeeds_print_unless|intros _ _].
  apply succeeds_bind; [unfold succeeds; by rewrite Hembs|].
  intros [ru en] Hout. rewrite Hembs in Hout. injection Hout as <- <-.
  apply succeeds_bind; [exact Hru_en|intros r1 _].
  apply succeeds_bind; [apply succeeds_print_metrics|intros _ _].
  apply succeeds_bind; [exact Hen_ru|intros r2 _].
  apply succeeds_bind; [apply succeeds_print_metrics|intros _ _].
  apply succeeds_ret.
Qed.

Lemma succeeds_classification_block (embeddings : gmap Z vec) results
    key announcement train_path test_path announce_training
    get_cls_report grid_search_cv n_jobs max_iter silent :
  task_returns embeddings train_path test_path
    get_cls_report grid_search_cv n_jobs max_iter silent ->
  succeeds (classification_block embeddings results key announcement
              train_path test_path announce_training
              get_cls_report grid_search_cv n_jobs max_iter silent).
Proof.
  intros (X_train & X_test & y_train & y_test & Hdata & Hclassify).
  unfold classification_block.
  apply succeeds_bind; [apply succeeds_print_unless|intros _ _].
  apply succeeds_bind; [unfold succeeds; by rewrite Hdata|].
  intros [[[X_train' X_test'] y_train'] y_test'] Hout.
  rewrite Hdata in Hout. injection Hout as <- <- <- <-.
  apply succeeds_bind.
  { destruct announce_training;
      [apply succeeds_print_unless | apply succeeds_ret]. }
  intros _ _. apply succeeds_bind; [exact Hclassify|intros r _].
  apply succeeds_bind; [apply succeeds_print_metrics|intros _ _].
  apply succeeds_ret.
Qed.

Lemma succeeds_classification_pair (embeddings : gmap Z vec) results
    key1 announcement1 train1 test1 key2 announcement2 train2 test2
    announce_training get_cls_report grid_search_cv n_jobs max_iter silent :
  task_returns embeddings train1 test1
    get_cls_report grid_search_cv n_jobs max_iter silent ->
  task_returns embeddings train2 test2
    get_cls_report grid_search_cv n_jobs max_iter silent ->
  succeeds
    (bind (classification_block embeddings results key1 announcement1
             train1 test1 announce_training
             get_cls_report grid_search_cv n_jobs max_iter silent)
          (fun results =>
             classification_block embeddings results key2 announcement2
               train2 test2 announce_training
               get_cls_report grid_search_cv n_jobs max_iter silent)).
Proof.
  intros Htask1 Htask2.
  apply succeeds_bind; [by apply succeeds_classification_block|].
  intros results1 _. by apply succeeds_classification_block.
Qed.

(** The entry point returns when the embeddings are loaded and every task of
    the selected families goes through: it raises nothing of its own. *)
Lemma succeeds_get_ru_sci_bench_metrics
    embeddings_path metrics get_cls_report grid_search_cv n_jobs max_iter
    silent (embeddings : gmap Z vec) :
  let task train_path test_path :=
    task_returns embeddings train_path test_path
      get_cls_report grid_search_cv n_jobs max_iter silent in
  embeddings_of_jsonl embeddings_path = Ok embeddings ->
  (selected metrics "translation_search" = true ->
   retrieval_returns embeddings n_jobs) ->
  (selected metrics "full_classification" = true ->
   task (elibrary_oecd_full_train data_paths)
        (elibrary_oecd_full_test data_paths)
   /\ task (elibrary_grnti_full_train data_paths)
           (elibrary_grnti_full_test data_paths)) ->
  (selected metrics "ru_classification" = true ->
   task (elibrary_oecd_ru_train data_paths)
        (elibrary_oecd_ru_test data_paths)
   /\ task (elibrary_grnti_ru_train data_paths)
           (elibrary_grnti_ru_test data_paths)) ->
  (selected metrics "en_classification" = true ->
   task (elibrary_oecd_en_train data_paths)
        (elibrary_oecd_en_test data_paths)
   /\ task (elibrary_grnti_en_train data_paths)
           (elibrary_grnti_en_test data_paths)) ->
  succeeds (get_ru_sci_bench_metrics embeddings_path metrics
              get_cls_report grid_search_cv n_jobs max_iter silent).
Proof.
  intros task Hload Hretrieval Hfull Hru Hen.
  unfold get_ru_sci_bench_metrics, load_embeddings_from_jsonl.
  apply succeeds_bind; [apply succeeds_print_unless|intros _ _].
  apply succeeds_bind.
  { apply succeeds_bind; [done|intros _ _]. unfold succeeds, lift, outcome, snd.
    by rewrite Hload. }
  intros embeddings' Hout.
  assert (embeddings' = embeddings) as ->.
  { rewrite outcome_bind in Hout. cbn [outcome emit lift snd] in Hout.
    rewrite Hload in Hout. by injection Hout. }
  apply succeeds_bind.
  { destruct (selected metrics "translation_search");
      [by apply succeeds_translation_block, Hretrieval | apply succeeds_ret]. }
  intros results1 _. apply succeeds_bind.
  { destruct (selected metrics "full_classification"); [|apply succeeds_ret].
    destruct (Hfull eq_refl). by apply succeeds_classification_pair. }
  intros results2 _. apply succeeds_bind.
  { destruct (selected metrics "ru_classification"); [|apply succeeds_ret].
    destruct (Hru eq_refl). by apply succeeds_classification_pair. }
  intros results3 _. apply succeeds_bind.
  { destruct (selected metrics "en_classification"); [|apply succeeds_ret].
    destruct (Hen eq_refl). by apply succeeds_classification_pair. }
  intros results4 _. apply succeeds_ret.
Qed.

Lemma succeeds_returns {A} (P : A -> Prop) (m : run A) :
  succeeds m -> returns P m -> exists a, outcome m = Ok a /\ P a.
Proof.
  unfold succeeds. intros Hok Hret.
  destruct (outcome m) as [a|e] eqn:Hout; [|done]. exists a. split; [done|].
  by apply Hret.
Qed.

End Returning.

(** ** The entry point *)

Section EntryPoint.

Context {vec label : Type}.
Context {NN : NearestNeighbors vec} {MT : Metrics label} {EV : Env vec label}.


(** C4.  With the selector ["translation_search"] and [silent] set, the
    call returns a report whose keys are exactly [ru_en_translation_search]
    and [en_ru_translation_search], in that order, as soon as the embeddings
    are loaded and the two retrieval tasks go through.  Whether it returns or
    raises, it writes nothing to the console and opens the embeddings and the
    translation file only. *)
Theorem translation_search_only_silent
    embeddings_path get_cls_report grid_search_cv n_jobs max_iter :
  let r := get_ru_sci_bench_metrics embeddings_path (Name "translation_search")
             get_cls_report grid_search_cv n_jobs max_iter true in
  console (trace r) = []
  /\ returns (fun report =>
                dict_keys report = ["ru_en_translation_search";
                                    "en_ru_translation_search"]) r
  /\ reads [embeddings_path; ru_en_translation_test data_paths] r
  /\ (forall embeddings,
        embeddings_of_jsonl embeddings_path = Ok embeddings ->
        retrieval_returns embeddings n_jobs ->
        exists report,
          outcome r = Ok report
          /\ dict_keys report = ["ru_en_translation_search";
                                 "en_ru_translation_search"]
          /\ files_read (trace r)
             = [embeddings_path; ru_en_translation_test data_paths]).
Proof.
  intros r.
  assert (Hreads : reads [embeddings_path; ru_en_translation_test data_paths] r)
    by exact (reads_get_ru_sci_bench_metrics
                embeddings_path (Name "translation_search") _ _ _ _ _).
  split; [apply quiet_get_ru_sci_bench_metrics|].
  split; [apply returns_expected_keys|]. split; [exact Hreads|].
  intros embeddings Hload Hretrieval.
  assert (Hok : succeeds r).
  { apply (succeeds_get_ru_sci_bench_metrics _ _ _ _ _ _ _ embeddings);
      [done|done|by intros ?..]. }
  destruct (succeeds_returns _ r Hok
              (returns_expected_keys embeddings_path
                 (Name "translation_search") _ _ _ _ _))
    as (report & Hout & Hkeys).
  exists report. split; [done|]. split; [exact Hkeys|].
  by apply Hreads.
Qed.



End EntryPoint.

Lemma assembly_keeps_rows_witness :
  is_ok (outcome (@get_X_y_for_classification _ _ Sample.world Sample.store
                    "elibrary_oecd_ru_train.csv" "elibrary_oecd_ru_test.csv"))
  = true
  /\ match outcome (@get_X_y_for_classification _ _ Sample.world Sample.store
                      "elibrary_oecd_ru_train.csv" "elibrary_oecd_ru_test.csv")
     with
     | Ok (X_train, X_test, y_train, y_test) =>
         length X_train = 4 /\ length y_train = 4
         /\ length X_test = 4 /\ length y_test = 4
     | Err _ => False
     end.
Proof.
  pose proof (@assembly_keeps_rows _ _ Sample.world Sample.store
                "elibrary_oecd_ru_train.csv" "elibrary_oecd_ru_test.csv"
                Sample.rows Sample.rows eq_refl eq_refl) as [Hrows Hok].
  assert (Hall : forall row : Z * string,
            row ∈ Sample.rows ++ Sample.rows ->
            is_Some (Sample.store !! row.1)).
  { intros row Hrow.
    repeat (apply elem_of_cons in Hrow as [->|Hrow]; [by eexists|]).
    by apply elem_of_nil in Hrow. }
  specialize (Hok Hall). split; [exact Hok|].
  destruct (outcome _) as [[[[X_train X_test] y_train] y_test]|e];
    [|discriminate Hok].
  destruct Hrows as (? & ? & ? & ? & _). done.
Defined.

(** A label file that names id 99, which has no embedding: the exception is
    Python's [KeyError], not a [MissingEmbeddingError]. *)
Lemma missing_embedding_error_class :
  outcome (@get_X_y_for_classification _ _ Sample.world Sample.store
             "dangling.csv" "elibrary_oecd_ru_test.csv")
  = Err (KeyError 99)
  /\ ~ (exists e,
          outcome (@get_X_y_for_classification _ _ Sample.world Sample.store
                     "dangling.csv" "elibrary_oecd_ru_test.csv") = Err e
          /\ exn_class e = "MissingEmbeddingError").
Proof.
  split; [reflexivity|].
  intros (e & Hout & Hcls). vm_compute in Hout.
  injection Hout as <-. discriminate Hcls.
Qed.

Lemma missing_embedding_raises_key_error_witness :
  let block :=
    @classification_block _ _ reference_metrics Sample.world Sample.store []
      "elibrary_oecd_ru" "Running the eLibrary OECD-ru task..."
      "dangling.csv" "elibrary_oecd_ru_test.csv" true
      false false (-1) 100 false in
  exists k before after,
    [1; 99; 1; 2; 3; 4]%Z = before ++ k :: after
    /\ (forall k', k' ∈ before -> is_Some (Sample.store !! k'))
    /\ Sample.store !! k = None
    /\ outcome (@get_X_y_for_classification _ _ Sample.world Sample.store
                  "dangling.csv" "elibrary_oecd_ru_test.csv")
       = Err (KeyError k)
    /\ outcome block = Err (KeyError k)
    /\ exn_class (KeyError k) = "KeyError"
    /\ k ∈ map fst ([(1, "A"); (99, "B")]%Z ++ Sample.rows)
    /\ models_fitted (trace block) = [].
Proof.
  apply (@missing_embedding_raises_key_error _ _ reference_metrics
           Sample.world Sample.store []
           "elibrary_oecd_ru" "Running the eLibrary OECD-ru task..."
           "dangling.csv" "elibrary_oecd_ru_test.csv" true
           false false (-1) 100 false
           [(1, "A"); (99, "B")]%Z Sample.rows eq_refl eq_refl).
  exists (99%Z, "B"). split; [|reflexivity].
  apply elem_of_cons. right. apply elem_of_cons. by left.
Defined.

Lemma translation_arrays_aligned_witness :
  match outcome (@get_embeddings_for_translation_search _ _ Sample.world
                   Sample.store "ru_en_translation_test.json")
  with
  | Ok (ru_embs, en_embs) =>
      length ru_embs = 2 /\ length en_embs = 2
      /\ forall i ru_id en_id, Sample.pairs !! i = Some (ru_id, en_id) ->
           exists k_ru k_en,
             Reference.decimal_int (JStr ru_id) = Ok k_ru
             /\ Reference.decimal_int en_id = Ok k_en
             /\ is_Some (ru_embs !! i) /\ is_Some (en_embs !! i)
             /\ ru_embs !! i = Sample.store !! k_ru
             /\ en_embs !! i = Sample.store !! k_en
  | Err e =>
      exists id_,
        id_ ∈ map (fun p => JStr p.1) Sample.pairs ++ map snd Sample.pairs
        /\ @embedding_of _ _ Sample.world Sample.store id_ = Err e
  end.
Proof.
  exact (@translation_arrays_aligned _ _ Sample.world Sample.store
           "ru_en_translation_test.json" Sample.pairs eq_refl).
Defined.

(** The arrays built from the sample mapping [{"1": 3, "2": "4"}]. *)
Example translation_arrays_sample :
  outcome (@get_embeddings_for_translation_search _ _ Sample.world
             Sample.store "ru_en_translation_test.json")
  = Ok ([[1; 0]; [0; 1]]%Q, [[9 # 10; 1 # 10]; [1 # 10; 9 # 10]]%Q).
Proof. reflexivity. Qed.

Lemma classify_result_witness :
  let X := [[1; 0]; [0; 1]; [9 # 10; 1 # 10]; [1 # 10; 9 # 10]]%Q in
  let y := ["A"; "B"; "A"; "B"] in
  let r := [("macro_f1", Float (32 # 32)); ("weighted_f1", Float (64 # 64));
            ("cls_report", Text "classification report")] in
  outcome (@classify _ _ reference_metrics Sample.world
             X y X y true (-1) 100 true true) = Ok r
  /\ dict_keys r = ["macro_f1"; "weighted_f1"; "cls_report"]
  /\ (is_Some (dict_get r "cls_report") <-> true = true).
Proof.
  intros X y r.
  assert (Hout : outcome (@classify _ _ reference_metrics Sample.world
                            X y X y true (-1) 100 true true) = Ok r)
    by (vm_compute; reflexivity).
  split; [exact Hout|].
  destruct (@classify_result _ _ reference_metrics Sample.world
              X y X y true (-1) 100 true true r Hout) as (Hkeys & Hrep & _).
  split; [exact Hkeys | exact Hrep].
Defined.

(** The sample benchmark with the selector ["translation_search"], silent. *)
Example translation_search_only_sample :
  let r := @get_ru_sci_bench_metrics _ _ cosine_search reference_metrics
             Sample.world "embeddings.jsonl" (Name "translation_search")
             false false (-1) 100 true in
  outcome r = Ok [("ru_en_translation_search", [("recall@1", Float (2 # 2))]);
                  ("en_ru_translation_search", [("recall@1", Float (2 # 2))])]
  /\ trace r = [ReadFile "embeddings.jsonl";
                ReadFile "ru_en_translation_test.json"].
Proof. split; vm_compute; reflexivity. Qed.

(** The sample benchmark with the selector ["all"]: the eight tasks return
    and the report lists them in the order of the catalog. *)
Example all_tasks_sample :
  let r := @get_ru_sci_bench_metrics _ _ cosine_search reference_metrics
             Sample.world "embeddings.jsonl" (Name "all")
             false false (-1) 100 false in
  is_ok (outcome r) = true
  /\ match outcome r with
     | Ok report =>
         dict_keys report
         = ["ru_en_translation_search"; "en_ru_translation_search";
            "elibrary_oecd_full"; "elibrary_grnti_full";
            "elibrary_oecd_ru"; "elibrary_grnti_ru";
            "elibrary_oecd_en"; "elibrary_grnti_en"]
     | Err _ => False
     end
  /\ length (models_fitted (trace r)) = 6.
Proof. split_and!; vm_compute; reflexivity. Qed.

(** A selector in which no catalog name occurs: nothing runs. *)
Example no_task_sample :
  let r := @get_ru_sci_bench_metrics _ _ cosine_search reference_metrics
             Sample.world "embeddings.jsonl" (Name "translation")
             false false (-1) 100 false in
  outcome r = Ok []
  /\ trace r = [Stdout "Loading embeddings..."; ReadFile "embeddings.jsonl"].
Proof. split; vm_compute; reflexivity. Qed.

(** * Further properties of the script *)

(** ** Retrieval on arrays of different lengths *)

Section RetrievalShapes.

Context {vec : Type} {NN : NearestNeighbors vec}.

Lemma length_nonzero_all_true (mask : list bool) :
  Forall (fun b => b = true) mask ->
  length (Np.nonzero mask) = length mask.
Proof.
  intros Hall. unfold Np.nonzero. rewrite length_nonzero_from.
  by apply (proj2 (length_filter_all _ _)).
Qed.

(** [translation_search], lines 308-313.  When the numbers of queries and of
    candidates differ and neither is 1, the comparison of [top_index] with
    [arange] cannot be broadcast: no value is returned, even though the
    neighbour search answered. *)
Theorem translation_search_shape_mismatch
    (queries_embs results_embs : list vec) (n_jobs : Z) (top_index : list nat) :
  kneighbors n_jobs results_embs queries_embs = Ok top_index ->
  length queries_embs <> length results_embs ->
  length queries_embs <> 1 ->
  length results_embs <> 1 ->
  exists msg,
    translation_search queries_embs results_embs n_jobs
    = Err (ValueError msg).
Proof.
  intros Hnn Hne Hq Hr.
  pose proof (kneighbors_length _ _ _ _ Hnn) as Htop.
  unfold translation_search. rewrite Hnn. cbn [rbind].
  unfold Np.eq, Np.arange. rewrite length_seq, Htop.
  destruct (Nat.eqb_spec (length queries_embs) (length results_embs));
    [done|].
  assert (Hseq : length (seq 0 (length results_embs)) <> 1)
    by (by rewrite length_seq).
  rewrite <- Htop in Hq.
  destruct top_index as [|x [|x' top]];
    destruct (seq 0 (length results_embs)) as [|y [|y' cands]];
    cbn in Hq, Hseq; try done; by eexists.
Qed.

(** [translation_search], lines 308-313.  Against a single candidate, whose
    index 0 is the neighbour of every query, the comparison is broadcast to
    all queries and the quotient is taken by 1: [recall@1] is the number of
    queries, whatever that number is. *)
Theorem single_candidate_recall_counts_queries
    (queries_embs : list vec) (candidate : vec) (n_jobs : Z)
    (top_index : list nat) :
  kneighbors n_jobs [candidate] queries_embs = Ok top_index ->
  Forall (fun j => j = 0) top_index ->
  translation_search queries_embs [candidate] n_jobs
  = Ok [("recall@1",
         Float (inject_Z (Z.of_nat (length queries_embs)) / inject_Z 1))].
Proof.
  intros Hnn Hzero.
  pose proof (kneighbors_length _ _ _ _ Hnn) as Htop.
  unfold translation_search. rewrite Hnn. cbn [rbind length Np.arange seq].
  assert (Hmask : Np.eq top_index [0]
                  = Ok (map (fun x => Nat.eqb x 0) top_index)).
  { unfold Np.eq. destruct top_index as [|x [|x' top]]; reflexivity. }
  rewrite Hmask. cbn [rbind].
  rewrite length_nonzero_all_true, length_map, Htop.
  - reflexivity.
  - apply Forall_fmap. eapply Forall_impl; [exact Hzero|].
    by intros j ->.
Qed.

End RetrievalShapes.

Lemma translation_search_shape_mismatch_witness :
  exists msg,
    @translation_search _ cosine_search
      [[1; 0]; [0; 1]; [1; 1]]%Q [[1; 0]; [0; 1]]%Q (-1)
    = Err (ValueError msg).
Proof.
  apply (@translation_search_shape_mismatch _ cosine_search
           [[1; 0]; [0; 1]; [1; 1]]%Q [[1; 0]; [0; 1]]%Q (-1) [0; 1; 0]).
  - vm_compute. reflexivity.
  - cbn. lia.
  - cbn. lia.
  - cbn. lia.
Defined.

Lemma single_candidate_recall_counts_queries_witness :
  @translation_search _ cosine_search
    [[1; 0]; [0; 1]; [1; 1]]%Q [[1; 0]%Q] (-1)
  = Ok [("recall@1", Float (inject_Z 3 / inject_Z 1))].
Proof.
  apply (@single_candidate_recall_counts_queries _ cosine_search
           [[1; 0]; [0; 1]; [1; 1]]%Q [1; 0]%Q (-1) [0; 0; 0]).
  - vm_compute. reflexivity.
  - repeat constructor.
Defined.

(** ** Which exception the builders raise *)

Section BuilderErrors.

Context {vec label : Type}.
Context {NN : NearestNeighbors vec} {MT : Metrics label} {EV : Env vec label}.

(** [get_X_y_for_classification], lines 265-269.  The ids are looked up in
    file order, those of the train file before those of the test file, and the
    exception names the first id met that has no embedding. *)
Theorem first_missing_id_is_reported
    (embeddings : gmap Z vec) train_path test_path train test
    (before after : list Z) (k : Z) :
  pd_read_csv train_path = Ok train ->
  pd_read_csv test_path = Ok test ->
  map fst train ++ map fst test = before ++ k :: after ->
  (forall k', k' ∈ before -> is_Some (embeddings !! k')) ->
  embeddings !! k = None ->
  outcome (get_X_y_for_classification embeddings train_path test_path)
  = Err (KeyError k).
Proof.
  intros Htrain Htest Hids Hbefore Hk.
  rewrite (get_X_y_for_classification_run _ _ _ _ _ Htrain Htest).
  cbn [outcome snd].
  assert (Hall : rmap (fun id_ => getitem embeddings id_)
                      (map fst train ++ map fst test) = Err (KeyError k)).
  { rewrite Hids. apply rmap_first_error.
    - apply Forall_forall. intros k' Hk'. unfold getitem.
      by destruct (Hbefore k' Hk') as [x ->].
    - unfold getitem. by rewrite Hk. }
  rewrite rmap_app in Hall.
  destruct (rmap _ (map fst train)) as [X_train|e]; cbn [rbind] in *.
  - destruct (rmap _ (map fst test)) as [X_test|e]; cbn [rbind] in *.
    + discriminate Hall.
    + by injection Hall as ->.
  - by injection Hall as ->.
Qed.

(** [get_X_y_for_classification], lines 265-266.  Both label files are read
    before any embedding is looked up.  If the train file cannot be read the
    test file is not opened; if the test file cannot be read, that exception
    is the outcome even when ids of the train file have no embedding. *)
Theorem unreadable_label_file
    (embeddings : gmap Z vec) train_path test_path e :
  (pd_read_csv train_path = Err e ->
   get_X_y_for_classification embeddings train_path test_path
   = ([ReadFile train_path], Err e))
  /\ (forall train,
        pd_read_csv train_path = Ok train ->
        pd_read_csv test_path = Err e ->
        get_X_y_for_classification embeddings train_path test_path
        = ([ReadFile train_path; ReadFile test_path], Err e)).
Proof.
  split.
  - intros Htrain.
    unfold get_X_y_for_classification, read_csv, emit, lift, bind.
    by rewrite Htrain.
  - intros train Htrain Htest.
    unfold get_X_y_for_classification, read_csv, emit, lift, bind.
    by rewrite Htrain, Htest.
Qed.

(** [get_embeddings_for_translation_search], lines 287-288.  All Russian ids
    are converted and looked up before any English id: the exception is that
    of the first Russian id that [int] rejects or that has no embedding,
    whatever the English ids are. *)
Theorem russian_ids_are_checked_first
    (embeddings : gmap Z vec) path mapping
    (before after : list string) (id_ : string) e :
  json_load path = Ok mapping ->
  map fst mapping = before ++ id_ :: after ->
  Forall (fun id' => is_ok (embedding_of embeddings (JStr id')) = true)
         before ->
  embedding_of embeddings (JStr id_) = Err e ->
  get_embeddings_for_translation_search embeddings path
  = ([ReadFile path], Err e).
Proof.
  intros Hload Hkeys Hbefore Hid.
  rewrite (get_embeddings_run _ _ _ Hload), Hkeys.
  rewrite (rmap_first_error
             (fun id' => embedding_of embeddings (JStr id'))
             before id_ after e Hbefore Hid).
  done.
Qed.

End BuilderErrors.

Lemma first_missing_id_is_reported_witness :
  outcome (@get_X_y_for_classification _ _ Sample.world Sample.store
             "elibrary_oecd_ru_train.csv" "dangling.csv")
  = Err (KeyError 99).
Proof.
  apply (@first_missing_id_is_reported _ _ Sample.world Sample.store
           "elibrary_oecd_ru_train.csv" "dangling.csv"
           Sample.rows [(1, "A"); (99, "B")]%Z
           [1; 2; 3; 4; 1]%Z [] 99%Z eq_refl eq_refl eq_refl).
  - intros k' Hk'.
    repeat (apply elem_of_cons in Hk' as [->|Hk']; [by eexists|]).
    by apply elem_of_nil in Hk'.
  - reflexivity.
Defined.

Lemma unreadable_label_file_witness :
  @get_X_y_for_classification _ _ Sample.world Sample.store
    "absent.csv" "elibrary_oecd_ru_test.csv"
  = ([ReadFile "absent.csv"], Err (Raised "FileNotFoundError" "absent.csv"))
  /\ @get_X_y_for_classification _ _ Sample.world Sample.store
       "dangling.csv" "absent.csv"
     = ([ReadFile "dangling.csv"; ReadFile "absent.csv"],
        Err (Raised "FileNotFoundError" "absent.csv")).
Proof.
  destruct (@unreadable_label_file _ _ Sample.world Sample.store
              "absent.csv" "elibrary_oecd_ru_test.csv"
              (Raised "FileNotFoundError" "absent.csv")) as [Htrain _].
  destruct (@unreadable_label_file _ _ Sample.world Sample.store
              "dangling.csv" "absent.csv"
              (Raised "FileNotFoundError" "absent.csv")) as [_ Htest].
  split; [exact (Htrain eq_refl) | exact (Htest _ eq_refl eq_refl)].
Defined.

(** A mapping whose first pair has an English id without embedding and whose
    second pair has a Russian id that is no numeral. *)
Module Dangling.

Definition pairs : list (string * json_scalar) :=
  [("1", JInt 77); ("x2", JInt 3)].

Definition world : Env (list Q) string :=
  Reference.env Sample.csv_files [("dangling.json", pairs)]
                Sample.jsonl_files.

End Dangling.

Lemma russian_ids_are_checked_first_witness :
  @get_embeddings_for_translation_search _ _ Dangling.world Sample.store
    "dangling.json"
  = ([ReadFile "dangling.json"],
     Err (ValueError "invalid literal for int() with base 10")).
Proof.
  apply (@russian_ids_are_checked_first _ _ Dangling.world Sample.store
           "dangling.json" Dangling.pairs ["1"] [] "x2"
           (ValueError "invalid literal for int() with base 10")
           eq_refl eq_refl).
  - repeat constructor.
  - reflexivity.
Defined.

(** ** The selector of the entry point *)

Section Selector.

Context {vec label : Type}.
Context {NN : NearestNeighbors vec} {MT : Metrics label} {EV : Env vec label}.

Lemma selected_names (l : list string) (name : string) :
  selected (Names l) name = bool_decide (name ∈ l).
Proof.
  unfold selected, name_in. cbn [existsb selector_eqb orb].
  destruct (bool_decide_reflect (name ∈ l)) as [Hin|Hnot].
  - apply existsb_exists. exists name.
    split; [by apply list_elem_of_In | apply String.eqb_refl].
  - apply not_true_is_false. intros (x & Hx & Heq)%existsb_exists.
    apply String.eqb_eq in Heq as <-. by apply Hnot, list_elem_of_In.
Qed.

(** [get_ru_sci_bench_metrics], lines 50, 67, 108 and 153.  The selector is
    used through the four tests only: two selectors that pass the same tests
    give the same run, so neither the order of a list of names nor names
    outside the catalog matter. *)
Theorem run_depends_on_selected_families
    embeddings_path (metrics metrics' : selector)
    get_cls_report grid_search_cv n_jobs max_iter silent :
  (forall name, name ∈ catalog ->
                selected metrics name = selected metrics' name) ->
  get_ru_sci_bench_metrics embeddings_path metrics
    get_cls_report grid_search_cv n_jobs max_iter silent
  = get_ru_sci_bench_metrics embeddings_path metrics'
      get_cls_report grid_search_cv n_jobs max_iter silent.
Proof.
  intros Hsame. unfold get_ru_sci_bench_metrics.
  rewrite (Hsame "translation_search"), (Hsame "full_classification"),
    (Hsame "ru_classification"), (Hsame "en_classification");
    [done|unfold catalog; set_solver..].
Qed.

(** [get_ru_sci_bench_metrics], lines 50, 67, 108 and 153.  With a list as
    selector a family runs exactly when its catalog name is an element of the
    list: the keys of a returned report and the files opened are those of the
    families named in the list, in catalog order.  A list holding only
    ["all"] therefore runs no task. *)
Theorem list_selector_is_membership
    (l : list string) embeddings_path
    get_cls_report grid_search_cv n_jobs max_iter silent :
  let run metrics :=
    get_ru_sci_bench_metrics embeddings_path metrics
      get_cls_report grid_search_cv n_jobs max_iter silent in
  returns (fun report =>
             dict_keys report
             = keys_if (bool_decide ("translation_search" ∈ l)) retrieval_keys
               ++ keys_if (bool_decide ("full_classification" ∈ l)) full_keys
               ++ keys_if (bool_decide ("ru_classification" ∈ l)) ru_keys
               ++ keys_if (bool_decide ("en_classification" ∈ l)) en_keys)
    (run (Names l))
  /\ returns (fun report => report = []) (run (Names ["all"]))
  /\ reads [embeddings_path] (run (Names ["all"])).
Proof.
  intros run. split; [|split].
  - rewrite <- !selected_names. apply returns_expected_keys.
  - eapply returns_weaken; [apply returns_expected_keys|].
    intros report Hkeys. by destruct report.
  - exact (reads_get_ru_sci_bench_metrics embeddings_path (Names ["all"])
             _ _ _ _ _).
Qed.

(** [get_ru_sci_bench_metrics], lines 43-48.  When the embeddings cannot be
    loaded the run ends with the loader's exception: whatever the selector,
    no task file is opened and no model is fitted, and the console shows at
    most the announcement of the loading. *)
Theorem load_failure_stops_run
    embeddings_path metrics get_cls_report grid_search_cv n_jobs max_iter
    silent e :
  embeddings_of_jsonl embeddings_path = Err e ->
  get_ru_sci_bench_metrics embeddings_path metrics
    get_cls_report grid_search_cv n_jobs max_iter silent
  = ((if silent then [] else [Stdout "Loading embeddings..."])
     ++ [ReadFile embeddings_path], Err e).
Proof.
  intros Hload.
  unfold get_ru_sci_bench_metrics, load_embeddings_from_jsonl, print_unless,
    print, emit, lift, bind, ret.
  rewrite Hload. by destruct silent.
Qed.

End Selector.

Lemma run_depends_on_selected_families_witness :
  @get_ru_sci_bench_metrics _ _ cosine_search reference_metrics Sample.world
    "embeddings.jsonl" (Name "all") false false (-1) 100 false
  = @get_ru_sci_bench_metrics _ _ cosine_search reference_metrics Sample.world
      "embeddings.jsonl"
      (Names ["en_classification"; "ru_classification"; "other";
              "full_classification"; "translation_search"])
      false false (-1) 100 false.
Proof.
  apply (@run_depends_on_selected_families _ _ cosine_search
           reference_metrics Sample.world).
  intros name Hname. unfold catalog in Hname.
  repeat (apply elem_of_cons in Hname as [->|Hname]; [reflexivity|]).
  by apply elem_of_nil in Hname.
Defined.

Lemma load_failure_stops_run_witness :
  @get_ru_sci_bench_metrics _ _ cosine_search reference_metrics Sample.world
    "absent.jsonl" (Name "all") false false (-1) 100 false
  = ([Stdout "Loading embeddings..."; ReadFile "absent.jsonl"],
     Err (Raised "FileNotFoundError" "absent.jsonl")).
Proof.
  exact (@load_failure_stops_run _ _ cosine_search reference_metrics
           Sample.world "absent.jsonl" (Name "all") false false (-1) 100
           false (Raised "FileNotFoundError" "absent.jsonl") eq_refl).
Defined.

(** ** The entries of a report *)

Lemma Forall_dict_set {V} (P : string * V -> Prop) (d : dict V) k v :
  Forall P d -> P (k, v) -> Forall P (dict_set d k v).
Proof.
  intros Hd Hkv. induction Hd as [|[k' v'] d Hhead Htail IH]; cbn [dict_set].
  - by constructor.
  - destruct (String.eqb k' k); by constructor.
Qed.

Section Entries.

Context {vec label : Type}.
Context {NN : NearestNeighbors vec} {MT : Metrics label} {EV : Env vec label}.

Local Abbreviation run := (M (event vec label)).

Lemma returns_lift {A} (P : A -> Prop) (r : result A) :
  (forall a, r = Ok a -> P a) -> returns P (lift r : run A).
Proof. intros HP a Hout. by apply HP. Qed.

Lemma translation_search_entry
    (queries_embs results_embs : list vec) (n_jobs : Z) r :
  length queries_embs = length results_embs ->
  translation_search queries_embs results_embs n_jobs = Ok r ->
  recall_entry r.
Proof.
  intros Hlen. unfold translation_search.
  destruct (kneighbors n_jobs results_embs queries_embs)
    as [top_index|e] eqn:Hnn; cbn [rbind]; [|done].
  pose proof (kneighbors_length _ _ _ _ Hnn) as Htop.
  rewrite broadcast_same_shape
    by (unfold Np.arange; rewrite length_seq; congruence).
  cbn [rbind]. unfold Py.truediv, Np.arange. rewrite length_seq.
  destruct (Z.eqb_spec (Z.of_nat (length results_embs)) 0) as [Hz|Hnz];
    cbn [rbind]; [done|].
  intros [= <-]. eexists. split; [reflexivity|].
  apply ratio_range; [|lia].
  replace (length results_embs) with (length top_index) by congruence.
  change (seq 0 (length top_index)) with (Np.arange (length top_index)).
  rewrite hits_aligned. apply aligned_count_le.
Qed.

Lemma returns_equal_lengths (embeddings : gmap Z vec) path :
  returns (fun embs => length embs.1 = length embs.2)
    (get_embeddings_for_translation_search embeddings path).
Proof.
  intros [ru_embs en_embs] Hout.
  destruct (json_load path) as [mapping|e] eqn:Hload.
  - rewrite (get_embeddings_run _ _ _ Hload) in Hout. cbn [outcome snd] in Hout.
    destruct (rmap _ (map fst mapping)) as [ru|e] eqn:Hru;
      cbn [rbind] in Hout; [|done].
    destruct (rmap _ (map snd mapping)) as [en|e] eqn:Hen;
      cbn [rbind] in Hout; [|done].
    injection Hout as <- <-.
    apply rmap_ok, Forall2_length in Hru, Hen.
    rewrite length_map in Hru, Hen. cbn. congruence.
  - unfold get_embeddings_for_translation_search, read_json, emit, lift, bind
      in Hout.
    by rewrite Hload in Hout.
Qed.

Lemma entries_translation_block get_cls_report
    (embeddings : gmap Z vec) results n_jobs silent :
  Forall (entry_ok get_cls_report) results ->
  returns (Forall (entry_ok get_cls_report))
    (translation_block embeddings results n_jobs silent).
Proof.
  intros Hresults. unfold translation_block.
  eapply returns_bind; [apply returns_any|intros _ _].
  eapply returns_bind; [apply returns_equal_lengths|].
  intros [ru_embs en_embs] Hlen. cbn [fst snd] in Hlen.
  eapply (returns_bind recall_entry).
  { apply returns_lift. intros r. by apply translation_search_entry. }
  intros r1 Hr1.
  eapply returns_bind; [apply returns_any|intros _ _].
  eapply (returns_bind recall_entry).
  { apply returns_lift. intros r. by apply translation_search_entry. }
  intros r2 Hr2.
  eapply returns_bind; [apply returns_any|intros _ _].
  apply returns_ret. by repeat apply Forall_dict_set.
Qed.

Lemma classify_scores X_train y_train X_test y_test
    grid_search_cv n_jobs max_iter get_cls_report silent :
  returns (scores_entry get_cls_report)
    (classify X_train y_train X_test y_test
              grid_search_cv n_jobs max_iter get_cls_report silent).
Proof.
  intros r. rewrite classify_outcome.
  destruct (svm_fit _ X_train y_train) as [model|e]; cbn [rbind]; [|done].
  destruct (svm_predict model X_test) as [y_pred|e]; cbn [rbind]; [|done].
  destruct (f1_score y_test y_pred Macro) as [m|e] eqn:Hm;
    cbn [rbind]; [|done].
  destruct (f1_score y_test y_pred Weighted) as [w|e] eqn:Hw;
    cbn [rbind]; [|done].
  destruct (f1_score_range _ _ _ _ Hm) as [Hm0 Hm1].
  destruct (f1_score_range _ _ _ _ Hw) as [Hw0 Hw1].
  destruct get_cls_report.
  - destruct (classification_report y_test y_pred) as [rep|e];
      cbn [rbind]; [|done].
    intros [= <-]. split; [done|]. by exists m, w.
  - intros [= <-]. split; [done|]. by exists m, w.
Qed.

Lemma entries_classification_block (embeddings : gmap Z vec) results
    key announcement train_path test_path announce_training
    get_cls_report grid_search_cv n_jobs max_iter silent :
  Forall (entry_ok get_cls_report) results ->
  key ∉ retrieval_keys ->
  returns (Forall (entry_ok get_cls_report))
    (classification_block embeddings results key announcement
       train_path test_path announce_training
       get_cls_report grid_search_cv n_jobs max_iter silent).
Proof.
  intros Hresults Hkey. unfold classification_block.
  eapply returns_bind; [apply returns_any|intros _ _].
  eapply returns_bind; [apply returns_any|].
  intros [[[X_train X_test] y_train] y_test] _.
  eapply returns_bind; [apply returns_any|intros _ _].
  eapply returns_bind; [apply classify_scores|intros r Hr].
  eapply returns_bind; [apply returns_any|intros _ _].
  apply returns_ret. apply Forall_dict_set; [done|].
  unfold entry_ok. cbn [fst snd]. by rewrite bool_decide_false.
Qed.

Lemma entries_classification_pair (embeddings : gmap Z vec) results
    key1 announcement1 train1 test1 key2 announcement2 train2 test2
    announce_training get_cls_report grid_search_cv n_jobs max_iter silent :
  Forall (entry_ok get_cls_report) results ->
  key1 ∉ retrieval_keys -> key2 ∉ retrieval_keys ->
  returns (Forall (entry_ok get_cls_report))
    (bind (classification_block embeddings results key1 announcement1
             train1 test1 announce_training
             get_cls_report grid_search_cv n_jobs max_iter silent)
          (fun results =>
             classification_block embeddings results key2 announcement2
               train2 test2 announce_training
               get_cls_report grid_search_cv n_jobs max_iter silent)).
Proof.
  intros Hresults Hkey1 Hkey2.
  eapply returns_bind; [by apply entries_classification_block|].
  intros results1 Hresults1. by apply entries_classification_block.
Qed.

(** [get_ru_sci_bench_metrics], lines 48-198.  In a report returned by the
    entry point, whatever the selector, an entry under a retrieval key is the
    single metric [recall@1] with a value between 0 and 1 (the two arrays come
    from one mapping, so they have the same length, and an empty mapping
    returns nothing), and an entry under any other key holds [macro_f1] and
    [weighted_f1] between 0 and 1, with [cls_report] exactly when it was asked
    for. *)
Theorem report_entries_in_range
    embeddings_path metrics get_cls_report grid_search_cv n_jobs max_iter
    silent :
  returns (fun report =>
             forall key r, (key, r) ∈ report ->
               (key ∈ retrieval_keys -> recall_entry r)
               /\ (key ∉ retrieval_keys -> scores_entry get_cls_report r))
    (get_ru_sci_bench_metrics embeddings_path metrics
       get_cls_report grid_search_cv n_jobs max_iter silent).
Proof.
  eapply (returns_weaken (Forall (entry_ok get_cls_report))).
  - unfold get_ru_sci_bench_metrics.
    eapply returns_bind; [apply returns_any|intros _ _].
    eapply returns_bind; [apply returns_any|intros embeddings _].
    eapply (returns_bind (Forall (entry_ok get_cls_report))).
    { destruct (selected metrics "translation_search");
        [by apply entries_translation_block | by apply returns_ret]. }
    intros results1 Hresults1.
    eapply (returns_bind (Forall (entry_ok get_cls_report))).
    { destruct (selected metrics "full_classification");
        [|by apply returns_ret].
      apply entries_classification_pair; [done|fresh_key..]. }
    intros results2 Hresults2.
    eapply (returns_bind (Forall (entry_ok get_cls_report))).
    { destruct (selected metrics "ru_classification");
        [|by apply returns_ret].
      apply entries_classification_pair; [done|fresh_key..]. }
    intros results3 Hresults3.
    eapply (returns_bind (Forall (entry_ok get_cls_report))).
    { destruct (selected metrics "en_classification");
        [|by apply returns_ret].
      apply entries_classification_pair; [done|fresh_key..]. }
    intros results4 Hresults4. by apply returns_ret.
  - intros report Hall key r Hin.
    rewrite Forall_forall in Hall. specialize (Hall _ Hin).
    unfold entry_ok in Hall. cbn [fst snd] in Hall.
    split; intros Hkey.
    + by rewrite bool_decide_true in Hall.
    + by rewrite bool_decide_false in Hall.
Qed.

End Entries.

(** ** A task that raises ends the run *)

Section FailFast.

Context {vec label : Type}.
Context {NN : NearestNeighbors vec} {MT : Metrics label} {EV : Env vec label}.

Lemma get_X_y_missing (embeddings : gmap Z vec)
    train_path test_path train test :
  pd_read_csv train_path = Ok train ->
  pd_read_csv test_path = Ok test ->
  (exists row, row ∈ train ++ test /\ embeddings !! row.1 = None) ->
  exists k,
    get_X_y_for_classification embeddings train_path test_path
    = ([ReadFile train_path; ReadFile test_path], Err (KeyError k))
    /\ k ∈ map fst (train ++ test) /\ embeddings !! k = None.
Proof.
  intros Htrain Htest (row & Hrow & Hnone).
  destruct (rmap_getitem_missing embeddings (map fst (train ++ test)) row.1)
    as (k & Hall & Hin & Hk); [by apply list_elem_of_fmap_2|done|].
  exists k. split; [|done].
  rewrite (get_X_y_for_classification_run _ _ _ _ _ Htrain Htest).
  f_equal. rewrite map_app, rmap_app in Hall.
  destruct (rmap _ (map fst train)) as [X_train|e]; cbn [rbind] in *.
  - destruct (rmap _ (map fst test)) as [X_test|e]; cbn [rbind] in *.
    + discriminate Hall.
    + by injection Hall as ->.
  - by injection Hall as ->.
Qed.

(** [get_ru_sci_bench_metrics], lines 67-85 and 198.  The entry point
    catches nothing.  When the first task to run is OECD-full and an id of its
    label files has no embedding, the run ends with that [KeyError]: no report
    is returned, no model is fitted, and the files of the tasks that would
    have followed are never opened. *)
Theorem missing_embedding_stops_run
    embeddings_path metrics get_cls_report grid_search_cv n_jobs max_iter
    silent (embeddings : gmap Z vec) train test :
  selected metrics "translation_search" = false ->
  selected metrics "full_classification" = true ->
  embeddings_of_jsonl embeddings_path = Ok embeddings ->
  pd_read_csv (elibrary_oecd_full_train data_paths) = Ok train ->
  pd_read_csv (elibrary_oecd_full_test data_paths) = Ok test ->
  (exists row, row ∈ train ++ test /\ embeddings !! row.1 = None) ->
  let r := get_ru_sci_bench_metrics embeddings_path metrics
             get_cls_report grid_search_cv n_jobs max_iter silent in
  exists k,
    outcome r = Err (KeyError k)
    /\ k ∈ map fst (train ++ test) /\ embeddings !! k = None
    /\ models_fitted (trace r) = []
    /\ files_read (trace r)
       = [embeddings_path; elibrary_oecd_full_train data_paths;
          elibrary_oecd_full_test data_paths].
Proof.
  intros Hsel1 Hsel2 Hload Htrain Htest Hmissing r.
  destruct (get_X_y_missing embeddings _ _ _ _ Htrain Htest Hmissing)
    as (k & Hget & Hin & Hk).
  exists k.
  assert (Hrun : r = ((if silent then [] else [Stdout "Loading embeddings..."])
                      ++ [ReadFile embeddings_path]
                      ++ (if silent then []
                          else [Stdout "Running the eLibrary OECD-full task..."])
                      ++ [ReadFile (elibrary_oecd_full_train data_paths);
                          ReadFile (elibrary_oecd_full_test data_paths)],
                      Err (KeyError k))).
  { subst r. unfold get_ru_sci_bench_metrics, load_embeddings_from_jsonl.
    rewrite Hsel1, Hsel2.
    destruct silent;
      cbn [bind print_unless print emit lift ret negb app];
      rewrite Hload;
      cbn [bind ret app];
      unfold classification_block;
      cbn [bind print_unless print emit lift ret negb app];
      rewrite Hget; reflexivity. }
  rewrite Hrun. split_and!; try done; by destruct silent.
Qed.

End FailFast.

(** The sample world with an OECD-full train file that names id 99. *)
Module Broken.

Definition csv_files : list (string * list (Z * string)) :=
  ("elibrary_oecd_full_train.csv", [(1, "A"); (99, "B")]%Z)
  :: Sample.csv_files.

Definition world : Env (list Q) string :=
  Reference.env csv_files Sample.json_files Sample.jsonl_files.

End Broken.

Lemma missing_embedding_stops_run_witness :
  let r := @get_ru_sci_bench_metrics _ _ cosine_search reference_metrics
             Broken.world "embeddings.jsonl"
             (Names ["full_classification"; "en_classification"])
             false false (-1) 100 true in
  exists k,
    outcome r = Err (KeyError k)
    /\ k ∈ map fst ([(1, "A"); (99, "B")]%Z ++ Sample.rows)
    /\ Sample.store !! k = None
    /\ models_fitted (trace r) = []
    /\ files_read (trace r)
       = ["embeddings.jsonl"; "elibrary_oecd_full_train.csv";
          "elibrary_oecd_full_test.csv"].
Proof.
  apply (@missing_embedding_stops_run _ _ cosine_search reference_metrics
           Broken.world "embeddings.jsonl"
           (Names ["full_classification"; "en_classification"])
           false false (-1) 100 true Sample.store
           [(1, "A"); (99, "B")]%Z Sample.rows
           eq_refl eq_refl eq_refl eq_refl eq_refl).
  exists (99%Z, "B"). split; [|reflexivity].
  apply elem_of_cons. right. apply elem_of_cons. by left.
Defined.

(** ** What [silent] changes *)

Section Silent.

Context {vec label : Type}.
Context {NN : NearestNeighbors vec} {MT : Metrics label} {EV : Env vec label}.

Local Abbreviation run := (M (event vec label)).

Lemma effects_app (t1 t2 : list (event vec label)) :
  effects (t1 ++ t2) = effects t1 ++ effects t2.
Proof. apply omap_app. Qed.

Lemma effects_stdout (lines : list string) :
  effects (vec := vec) (label := label) (map Stdout lines) = [].
Proof. induction lines as [|line lines IH]; [done|apply IH]. Qed.

Lemma same_effects_refl {A} (m : run A) : same_effects m m.
Proof. by split. Qed.

Lemma same_effects_bind {A B} (m m' : run A) (f f' : A -> run B) :
  same_effects m m' -> (forall a, same_effects (f a) (f' a)) ->
  same_effects (bind m f) (bind m' f').
Proof.
  unfold same_effects. intros [Hout Heff] Hf.
  rewrite !outcome_bind, !trace_bind, !effects_app, Hout, Heff.
  destruct (outcome m') as [a|e]; [|done].
  destruct (Hf a) as [-> ->]. done.
Qed.

Lemma same_effects_print_unless silent silent' line :
  same_effects (print_unless (vec := vec) (label := label) silent line)
               (print_unless silent' line).
Proof. by destruct silent, silent'. Qed.

Lemma same_effects_print_metrics name results silent silent' :
  same_effects (print_metrics name results silent)
               (print_metrics name results silent').
Proof.
  unfold same_effects, print_metrics.
  destruct silent, silent'; cbn [outcome trace fst snd ret];
    by rewrite ?effects_stdout.
Qed.

Lemma same_effects_classification_block (embeddings : gmap Z vec) results
    key announcement train_path test_path announce_training
    get_cls_report n_jobs max_iter silent silent' :
  same_effects
    (classification_block embeddings results key announcement
       train_path test_path announce_training
       get_cls_report false n_jobs max_iter silent)
    (classification_block embeddings results key announcement
       train_path test_path announce_training
       get_cls_report false n_jobs max_iter silent').
Proof.
  unfold classification_block.
  apply same_effects_bind; [apply same_effects_print_unless|intros _].
  apply same_effects_bind; [apply same_effects_refl|].
  intros [[[X_train X_test] y_train] y_test].
  apply same_effects_bind.
  { destruct announce_training;
      [apply same_effects_print_unless | apply same_effects_refl]. }
  intros _. apply same_effects_bind; [apply same_effects_refl|intros r].
  apply same_effects_bind; [apply same_effects_print_metrics|intros _].
  apply same_effects_refl.
Qed.

Lemma same_effects_translation_block (embeddings : gmap Z vec) results
    n_jobs silent silent' :
  same_effects (translation_block embeddings results n_jobs silent)
               (translation_block embeddings results n_jobs silent').
Proof.
  unfold translation_block.
  apply same_effects_bind; [apply same_effects_print_unless|intros _].
  apply same_effects_bind; [apply same_effects_refl|].
  intros [ru_embs en_embs].
  apply same_effects_bind; [apply same_effects_refl|intros r1].
  apply same_effects_bind; [apply same_effects_print_metrics|intros _].
  apply same_effects_bind; [apply same_effects_refl|intros r2].
  apply same_effects_bind; [apply same_effects_print_metrics|intros _].
  apply same_effects_refl.
Qed.

(** [get_ru_sci_bench_metrics] and [classify], lines 44-196 and 229-239.
    Without grid search, [silent] reaches nothing but the prints: two runs
    that differ only in [silent] have the same outcome (the same report or the
    same exception), open the same files and hand the same models and data to
    [fit], in the same order. *)
Theorem silent_only_affects_console
    embeddings_path metrics get_cls_report n_jobs max_iter silent silent' :
  let r := get_ru_sci_bench_metrics embeddings_path metrics
             get_cls_report false n_jobs max_iter silent in
  let r' := get_ru_sci_bench_metrics embeddings_path metrics
              get_cls_report false n_jobs max_iter silent' in
  outcome r = outcome r' /\ effects (trace r) = effects (trace r').
Proof.
  intros r r'.
  assert (Hsame : same_effects r r').
  { subst r r'. unfold get_ru_sci_bench_metrics.
    apply same_effects_bind; [apply same_effects_print_unless|intros _].
    apply same_effects_bind; [apply same_effects_refl|intros embeddings].
    apply same_effects_bind.
    { destruct (selected metrics "translation_search");
        [apply same_effects_translation_block | apply same_effects_refl]. }
    intros results1. apply same_effects_bind.
    { destruct (selected metrics "full_classification");
        [|apply same_effects_refl].
      apply same_effects_bind; intros;
        apply same_effects_classification_block. }
    intros results2. apply same_effects_bind.
    { destruct (selected metrics "ru_classification");
        [|apply same_effects_refl].
      apply same_effects_bind; intros;
        apply same_effects_classification_block. }
    intros results3. apply same_effects_bind.
    { destruct (selected metrics "en_classification");
        [|apply same_effects_refl].
      apply same_effects_bind; intros;
        apply same_effects_classification_block. }
    intros results4. apply same_effects_refl. }
  exact Hsame.
Qed.

End Silent.

(** ** What is fitted, and on what *)

Section Fitting.

Context {vec label : Type}.
Context {NN : NearestNeighbors vec} {MT : Metrics label} {EV : Env vec label}.

Local Abbreviation run := (M (event vec label)).

Lemma fits_bind {A B} svm n1 n2 (m : run A) (f : A -> run B) :
  fits svm n1 m -> (forall a, fits svm n2 (f a)) ->
  fits svm (n1 + n2) (bind m f).
Proof.
  unfold fits. intros (Hall & Hle & Hok) Hf.
  rewrite trace_bind, outcome_bind, models_fitted_app, length_app.
  destruct (outcome m) as [a|e]; cbv beta iota.
  - destruct (Hf a) as (Hall' & Hle' & Hok'). rewrite Hok by done.
    split; [by apply Forall_app|]. split; [lia|].
    intros Hret. by rewrite Hok'.
  - replace (models_fitted (vec := vec) (label := label) []) with (@nil pyval)
      by done.
    rewrite app_nil_r. cbn [length]. split; [done|]. split; [lia|done].
Qed.

Lemma fits_nothing {A} svm (m : run A) :
  models_fitted (trace m) = [] -> fits svm 0 m.
Proof. unfold fits. by intros ->. Qed.

Lemma fits_print_metrics svm name results silent :
  fits svm 0 (print_metrics name results silent).
Proof.
  apply fits_nothing. destruct silent; [done|].
  unfold print_metrics, trace, fst, models_fitted.
  induction (metrics_lines name results) as [|line lines IH]; [done|apply IH].
Qed.

Lemma fits_classify X_train y_train X_test y_test
    grid_search_cv n_jobs max_iter get_cls_report silent :
  fits (svm_of grid_search_cv max_iter n_jobs silent) 1
    (classify X_train y_train X_test y_test
              grid_search_cv n_jobs max_iter get_cls_report silent).
Proof.
  unfold fits. rewrite classify_trace. cbn. split; [by constructor|done].
Qed.

Lemma fits_get_X_y svm (embeddings : gmap Z vec) train_path test_path :
  fits svm 0 (get_X_y_for_classification embeddings train_path test_path).
Proof.
  unfold get_X_y_for_classification, read_csv.
  change 0 with (0 + 0 + (0 + 0 + (0 + (0 + 0)))).
  repeat first [ apply fits_bind; [|intros ?] | by apply fits_nothing ].
Qed.

Lemma fits_classification_block (embeddings : gmap Z vec) results
    key announcement train_path test_path announce_training
    get_cls_report grid_search_cv n_jobs max_iter silent :
  fits (svm_of grid_search_cv max_iter n_jobs silent) 1
    (classification_block embeddings results key announcement
       train_path test_path announce_training
       get_cls_report grid_search_cv n_jobs max_iter silent).
Proof.
  unfold classification_block.
  apply (fits_bind _ 0 1);
    [apply fits_nothing, fits_print_unless|intros _].
  apply (fits_bind _ 0 1); [apply fits_get_X_y|].
  intros [[[X_train X_test] y_train] y_test].
  apply (fits_bind _ 0 1).
  { apply fits_nothing. destruct announce_training;
      [apply fits_print_unless | done]. }
  intros _. apply (fits_bind _ 1 0); [apply fits_classify|intros r].
  apply (fits_bind _ 0 0); [apply fits_print_metrics|intros _].
  by apply fits_nothing.
Qed.

Lemma fits_translation_block svm (embeddings : gmap Z vec) results
    n_jobs silent :
  fits svm 0 (translation_block embeddings results n_jobs silent).
Proof.
  unfold translation_block, get_embeddings_for_translation_search, read_json.
  apply (fits_bind _ 0 0);
    [apply fits_nothing, fits_print_unless|intros _].
  apply (fits_bind _ 0 0).
  { change 0 with (0 + 0 + (0 + (0 + 0))).
    repeat first [ apply fits_bind; [|intros ?] | by apply fits_nothing ]. }
  intros [ru_embs en_embs].
  apply (fits_bind _ 0 0); [by apply fits_nothing|intros r1].
  apply (fits_bind _ 0 0); [apply fits_print_metrics|intros _].
  apply (fits_bind _ 0 0); [by apply fits_nothing|intros r2].
  apply (fits_bind _ 0 0); [apply fits_print_metrics|intros _].
  by apply fits_nothing.
Qed.

Definition fits_if (b : bool) : nat := if b then 2 else 0.

(** [get_ru_sci_bench_metrics] and [classify], lines 67-196 and 229-240.
    Every model handed to [fit] during a run is the one configured by the
    arguments of the entry point: the same for all tasks.  A run that returns
    has fitted exactly one model per classification task, two per selected
    family; a run that raises has fitted at most that many; the retrieval
    tasks fit nothing. *)
Theorem one_fit_per_classification_task
    embeddings_path metrics get_cls_report grid_search_cv n_jobs max_iter
    silent :
  let r := get_ru_sci_bench_metrics embeddings_path metrics
             get_cls_report grid_search_cv n_jobs max_iter silent in
  let n := fits_if (selected metrics "full_classification")
           + fits_if (selected metrics "ru_classification")
           + fits_if (selected metrics "en_classification") in
  Forall (fun model => model = svm_of grid_search_cv max_iter n_jobs silent)
         (models_fitted (trace r))
  /\ length (models_fitted (trace r)) <= n
  /\ (is_ok (outcome r) = true -> length (models_fitted (trace r)) = n).
Proof.
  intros r n. change (fits (svm_of grid_search_cv max_iter n_jobs silent) n r).
  subst r n. unfold get_ru_sci_bench_metrics, load_embeddings_from_jsonl.
  set (n2 := fits_if (selected metrics "full_classification")).
  set (n3 := fits_if (selected metrics "ru_classification")).
  set (n4 := fits_if (selected metrics "en_classification")).
  apply (fits_bind _ 0 (n2 + n3 + n4));
    [apply fits_nothing, fits_print_unless|intros _].
  apply (fits_bind _ 0 (n2 + n3 + n4)).
  { apply (fits_bind _ 0 0); [|intros _]; by apply fits_nothing. }
  intros embeddings. apply (fits_bind _ 0 (n2 + n3 + n4)).
  { destruct (selected metrics "translation_search");
      [apply fits_translation_block | by apply fits_nothing]. }
  intros results1.
  replace (n2 + n3 + n4) with (n2 + (n3 + (n4 + 0))) by lia.
  apply fits_bind.
  { subst n2. destruct (selected metrics "full_classification");
      [|by apply fits_nothing].
    apply (fits_bind _ 1 1); intros; apply fits_classification_block. }
  intros results2. apply fits_bind.
  { subst n3. destruct (selected metrics "ru_classification");
      [|by apply fits_nothing].
    apply (fits_bind _ 1 1); intros; apply fits_classification_block. }
  intros results3. apply fits_bind.
  { subst n4. destruct (selected metrics "en_classification");
      [|by apply fits_nothing].
    apply (fits_bind _ 1 1); intros; apply fits_classification_block. }
  intros results4. by apply fits_nothing.
Qed.

End Fitting.

Section TrainingData.

Context {vec label : Type}.
Context {NN : NearestNeighbors vec} {MT : Metrics label} {EV : Env vec label}.

Lemma fit_data_app (t1 t2 : list (event vec label)) :
  fit_data (t1 ++ t2) = fit_data t1 ++ fit_data t2.
Proof. apply omap_app. Qed.

Lemma fit_data_print_unless silent line :
  fit_data (trace (print_unless (vec := vec) (label := label) silent line))
  = [].
Proof. by destruct silent. Qed.

Lemma fit_data_print_metrics name results silent :
  fit_data (trace (print_metrics name results silent)) = [].
Proof.
  destruct silent; [done|]. unfold print_metrics, trace, fst, fit_data.
  induction (metrics_lines name results) as [|line lines IH]; [done|apply IH].
Qed.

(** [get_ru_sci_bench_metrics] and [get_X_y_for_classification], lines
    70-85 and 265-269.  In a classification task whose label files are read
    and whose ids all have an embedding, [fit] is called once, on the
    embeddings of the ids of the train file and the labels of the train file,
    row by row in file order; nothing of the test file is handed to [fit]. *)
Theorem model_is_fitted_on_train_file
    (embeddings : gmap Z vec) results key announcement
    train_path test_path announce_training
    get_cls_report grid_search_cv n_jobs max_iter silent train test :
  pd_read_csv train_path = Ok train ->
  pd_read_csv test_path = Ok test ->
  (forall row, row ∈ train ++ test -> is_Some (embeddings !! row.1)) ->
  exists X_train,
    fit_data (trace (classification_block embeddings results key announcement
                       train_path test_path announce_training
                       get_cls_report grid_search_cv n_jobs max_iter silent))
    = [(X_train, map snd train)]
    /\ Forall2 (fun row x => embeddings !! row.1 = Some x) train X_train.
Proof.
  intros Htrain Htest Hall.
  destruct (rmap_getitem_total embeddings (map fst train)) as [X_train Htr].
  { intros k (row & -> & Hrow)%list_elem_of_fmap. apply Hall. set_solver. }
  destruct (rmap_getitem_total embeddings (map fst test)) as [X_test Hte].
  { intros k (row & -> & Hrow)%list_elem_of_fmap. apply Hall. set_solver. }
  exists X_train. split.
  - unfold classification_block.
    rewrite trace_bind, outcome_print_unless, fit_data_app,
      fit_data_print_unless.
    rewrite trace_bind, (get_X_y_for_classification_run _ _ _ _ _ Htrain Htest).
    rewrite Htr, Hte. cbn [rbind outcome trace fst snd].
    rewrite fit_data_app, trace_bind, fit_data_app.
    assert (Hann : outcome (if announce_training
                            then print_unless (vec := vec) (label := label)
                                   silent "Classifier training..."
                            else ret tt) = Ok tt)
      by (destruct announce_training; [apply outcome_print_unless|done]).
    assert (Hann' : fit_data (trace (if announce_training
                            then print_unless (vec := vec) (label := label)
                                   silent "Classifier training..."
                            else ret tt)) = [])
      by (destruct announce_training; [apply fit_data_print_unless|done]).
    rewrite Hann, Hann', trace_bind, fit_data_app, classify_trace.
    destruct (outcome (classify _ _ _ _ _ _ _ _ _)) as [r|e]; [|done].
    rewrite trace_bind, fit_data_app, fit_data_print_metrics.
    by destruct (outcome (print_metrics _ _ _)).
  - apply rmap_getitem_ok in Htr. by apply Forall2_fmap_l in Htr.
Qed.

End TrainingData.

Lemma model_is_fitted_on_train_file_witness :
  exists X_train,
    fit_data (trace (@classification_block _ _ reference_metrics Sample.world
                       Sample.store [] "elibrary_oecd_ru"
                       "Running the eLibrary OECD-ru task..."
                       "elibrary_oecd_ru_train.csv" "elibrary_oecd_ru_test.csv"
                       true false false (-1) 100 false))
    = [(X_train, ["A"; "B"; "A"; "B"])]
    /\ Forall2 (fun row x => Sample.store !! row.1 = Some x)
               Sample.rows X_train.
Proof.
  apply (@model_is_fitted_on_train_file _ _ reference_metrics Sample.world
           Sample.store [] "elibrary_oecd_ru"
           "Running the eLibrary OECD-ru task..."
           "elibrary_oecd_ru_train.csv" "elibrary_oecd_ru_test.csv"
           true false false (-1) 100 false Sample.rows Sample.rows
           eq_refl eq_refl).
  intros row Hrow.
  repeat (apply elem_of_cons in Hrow as [->|Hrow]; [by eexists|]).
  by apply elem_of_nil in Hrow.
Defined.

(** ** The sample benchmark returns *)

Lemma sample_retrieval_returns :
  @retrieval_returns _ _ cosine_search Sample.world Sample.store (-1).
Proof.
  exists [[1; 0]; [0; 1]]%Q, [[9 # 10; 1 # 10]; [1 # 10; 9 # 10]]%Q.
  split_and!; vm_compute; reflexivity.
Qed.


Lemma translation_search_only_silent_witness :
  let r := @get_ru_sci_bench_metrics _ _ cosine_search reference_metrics
             Sample.world "embeddings.jsonl" (Name "translation_search")
             false false (-1) 100 true in
  console (trace r) = []
  /\ exists report,
       outcome r = Ok report
       /\ dict_keys report = ["ru_en_translation_search";
                              "en_ru_translation_search"]
       /\ files_read (trace r)
          = ["embeddings.jsonl"; "ru_en_translation_test.json"].
Proof.
  intros r.
  destruct (@translation_search_only_silent _ _ cosine_search
              reference_metrics Sample.world "embeddings.jsonl"
              false false (-1) 100) as (Hquiet & _ & _ & Hreturns).
  split; [exact Hquiet|].
  exact (Hreturns Sample.store eq_refl sample_retrieval_returns).
Defined.


